(** * geospatial_functions.py: street network, points of interest, map

    A shallow embedding of [geospatial_functions.py] and the properties its
    specification states about it.

    The script is a thin layer over three libraries.  What the script itself
    does is embedded here as it is written: the centroid arithmetic, the
    [try]/[except] wrappers, the per-row loop of the map builder, the pop-up
    text and the icon rules.  What the libraries do is taken as an interface:
    - shapely geometries are seen through the class [Shapely] (the attributes
      the script reads: [geom_type], truth value, [x], [y], [centroid]);
    - the OSMnx calls and the two formatting routines of the Python runtime
      that the log lines need are the fields of the class [Services];
    - folium objects live in a store of elements ([World]): [add_to] mutates
      the parent that is already part of the map, so markers added to a
      cluster after the cluster was added to the map are seen from the map.

    Numbers: coordinates are Python floats, that is binary64 numbers; they
    are the primitive floats of Rocq ([PrimFloat.float]), whose operations
    are the IEEE 754 ones with rounding to nearest, ties to even.

    Strings: a Python [str] is kept as its UTF-8 encoding.  What
    [str.title] does to characters beyond ASCII is read from the
    interpreter's Unicode tables, the class [Unicode]. *)

From Stdlib Require Import QArith Qround Ascii String Floats.
From stdpp Require Import gmap strings list pretty.

Set Default Proof Using "Type".

(** A decimal literal stands for the nearest binary64 number, as in Python. *)
Set Warnings "-inexact-float".

(** ** Python values and exceptions *)

Module Py.

(** The exception classes the script raises or meets. *)
Inductive exn_class :=
| ValueError
| AttributeError
| KeyError
| OtherException (class_name : string).

(** An exception object: its class and [str(e)]. *)
Record exn := mk_exn { exn_type : exn_class; exn_str : string }.

(** The result of evaluating an expression that may raise. *)
Inductive outcome (A : Type) :=
| Returned (a : A)
| Raised (e : exn).
Arguments Returned {A} a.
Arguments Raised {A} e.

Definition obind {A B} (o : outcome A) (k : A → outcome B) : outcome B :=
  match o with
  | Returned a => k a
  | Raised e => Raised e
  end.

(** A cell of a pandas row: a string, a missing value ([None] or the float
    [nan] that pandas puts where a column has no value for the row). *)
Inductive pyval :=
| PyNone
| PyNaN
| PyStr (s : string).

#[global] Instance pyval_eq_dec : EqDecision pyval.
Proof. solve_decision. Defined.

(** [bool(v)]: [None] and the empty string are false; [nan] is a non-zero
    float, hence true. *)
Definition truthy (v : pyval) : bool :=
  match v with
  | PyNone => false
  | PyNaN => true
  | PyStr s => negb (String.eqb s "")
  end.

(** [f"{v}"]. *)
Definition format (v : pyval) : string :=
  match v with
  | PyNone => "None"
  | PyNaN => "nan"
  | PyStr s => s
  end.

(** [v == lit] for a string literal [lit]. *)
Definition eq_str (v : pyval) (lit : string) : bool :=
  match v with
  | PyStr s => String.eqb s lit
  | _ => false
  end.

(** *** [str.replace] with one-character arguments, and [str.title] *)

Definition is_lower (c : ascii) : bool :=
  let n := nat_of_ascii c in (97 <=? n)%nat && (n <=? 122)%nat.

Definition is_upper (c : ascii) : bool :=
  let n := nat_of_ascii c in (65 <=? n)%nat && (n <=? 90)%nat.

Definition is_cased (c : ascii) : bool := is_lower c || is_upper c.

Definition to_upper (c : ascii) : ascii :=
  if is_lower c then ascii_of_nat (nat_of_ascii c - 32) else c.

Definition to_lower (c : ascii) : ascii :=
  if is_upper c then ascii_of_nat (nat_of_ascii c + 32) else c.

Fixpoint replace_char (old new : ascii) (s : string) : string :=
  match s with
  | EmptyString => EmptyString
  | String c rest =>
      String (if Ascii.eqb c old then new else c) (replace_char old new rest)
  end.

(** [str.title] on a string of ASCII characters: a cased character is
    upper-cased when the character before it is not cased, and lower-cased
    when it is. *)
Fixpoint title_from (previous_is_cased : bool) (s : string) : string :=
  match s with
  | EmptyString => EmptyString
  | String c rest =>
      String (if previous_is_cased then to_lower c else to_upper c)
             (title_from (is_cased c) rest)
  end.

Fixpoint all_ascii (s : string) : bool :=
  match s with
  | EmptyString => true
  | String c rest => (nat_of_ascii c <? 128)%nat && all_ascii rest
  end.

(** Beyond ASCII, which characters are cased and what their title-case and
    lower-case forms are is written in the Unicode tables of the
    interpreter: [str.title] on a string that has such characters is taken
    from there. *)
Class Unicode := { title_beyond_ascii : string → string }.

Definition title `{!Unicode} (s : string) : string :=
  if all_ascii s then title_from false s else title_beyond_ascii s.

(** [v.replace('_', ' ').title()]: only strings have [replace]. *)
Definition replace_title `{!Unicode} (v : pyval) : outcome string :=
  match v with
  | PyStr s => Returned (title (replace_char "_"%char " "%char s))
  | PyNaN =>
      Raised (mk_exn AttributeError "'float' object has no attribute 'replace'")
  | PyNone =>
      Raised (mk_exn AttributeError "'NoneType' object has no attribute 'replace'")
  end.

(** [sum(l)] on floats: starts from [0] and adds the items one after the
    other from the left, every sum rounded to binary64 (the built-in of
    CPython up to 3.11; later versions carry a correction term along). *)
Definition sum (l : list float) : float := foldl PrimFloat.add 0%float l.

(** [float(n)] for the length of a list, as [/] converts it before it
    divides (a list has fewer than 2^63 items). *)
Definition float_of_len (n : nat) : float :=
  PrimFloat.of_uint63 (Uint63.of_Z (Z.of_nat n)).

End Py.
Export Py.

(** ** The street network *)

Record NodeData := { node_x : float; node_y : float }.

Record Edge := {
  edge_u : Z;
  edge_v : Z;
  edge_key : nat;
  edge_name : option string
}.

(** A [networkx.MultiDiGraph]: node identifiers with their attributes, in
    insertion order, and edges. *)
Record Graph := {
  nodes : list (Z * NodeData);
  edges : list Edge
}.

(** ** calculate_graph_centroid *)

Definition calculate_graph_centroid (graph : Graph) : outcome (float * float) :=
  match nodes graph with
  | [] => Raised (mk_exn ValueError "Graph has no nodes to calculate a centroid.")
  | _ =>
      let node_xs := map (λ nd, node_x nd.2) (nodes graph) in
      let node_ys := map (λ nd, node_y nd.2) (nodes graph) in
      let latitude := (Py.sum node_ys / Py.float_of_len (length node_ys))%float in
      let longitude := (Py.sum node_xs / Py.float_of_len (length node_xs))%float in
      Returned (latitude, longitude)
  end.

(** ** Geometries, rows, and the external services *)

(** What the script reads from a shapely geometry.  [geom_bool] is the truth
    value of the object (shapely: a geometry is true unless it is empty);
    [geom_x] and [geom_y] are the attributes [x] and [y], which only points
    have; [geom_centroid] is the attribute [centroid]. *)
Class Shapely (G : Type) := {
  geom_type : G → string;
  geom_bool : G → bool;
  geom_x : G → outcome float;
  geom_y : G → outcome float;
  geom_centroid : G → outcome G
}.

(** A row of the POI GeoDataFrame as [iterrows] yields it: the geometry
    column (a geometry or [None]) and the other columns by label. *)
Record POI (G : Type) := {
  geometry : option G;
  attrs : gmap string pyval
}.
Arguments geometry {G} _.
Arguments attrs {G} _.

(** [row.get(key, default)]. *)
Definition row_get {G} (row : POI G) (key : string) (default : pyval) : pyval :=
  match attrs row !! key with
  | Some v => v
  | None => default
  end.

(** [row[key]]. *)
Definition row_item {G} (row : POI G) (key : string) : outcome pyval :=
  match attrs row !! key with
  | Some v => Returned v
  | None => Raised (mk_exn KeyError ("'" +:+ key +:+ "'"))
  end.

(** [key in row]. *)
Definition row_contains {G} (row : POI G) (key : string) : bool :=
  bool_decide (is_Some (attrs row !! key)).

(** An OSM tag filter: a value, a list of values, or a flag for each key. *)
Inductive TagFilter :=
| TagValue (v : string)
| TagValues (vs : list string)
| TagFlag (b : bool).

Definition Tags := list (string * TagFilter).

(** The library calls of the script and the runtime's formatting of the two
    values that are not strings in the log lines.  A call is a function of
    its arguments: it returns a value or raises. *)
Class Services (G : Type) := {
  graph_from_place : string → string → outcome Graph;
  features_from_place : string → Tags → outcome (list (POI G));
  graph_to_gdfs_edges : Graph → outcome (list Edge);
  format_4f : float → string;
  format_tags : Tags → string
}.

(** ** The store of folium elements *)

(** The store holds the elements of the layer tree: the map, and what is
    added to it or to one of its clusters with [add_to].  The objects the
    script hands to a constructor and never names again are kept as fields
    of the element they were made for: a marker has its pop-up and its icon,
    the street layer its style and its tooltip, the map its tiles. *)
Record Popup := { popup_html : string; popup_max_width : Z }.

Record Icon := { icon_color : string; icon_name : string; icon_prefix : string }.

Record MarkerData := {
  marker_location : float * float;
  marker_popup : Popup;
  marker_icon : Icon
}.

Record Style := { style_color : string; style_weight : Z; style_opacity : float }.

Record Tooltip := {
  tooltip_fields : list string;
  tooltip_aliases : list string;
  tooltip_localize : bool
}.

Inductive Payload :=
| FoliumMap (location : float * float) (zoom_start : Z) (tiles : string)
| GeoJson (data : list Edge) (name : string) (style : Style) (tooltip : Tooltip)
| MarkerCluster (name : string)
| Marker (d : MarkerData)
| LayerControl.

(** A folium element and the references to its children, in the order they
    were added. *)
Record Element := { payload : Payload; children : list nat }.

(** The part of the process state the script acts on: the lines printed so
    far and the folium elements allocated so far (a reference is an index). *)
Record World := { stdout : list string; heap : list Element }.

(** ** Effects: a state and exception monad *)

Definition M (A : Type) : Type := World → World * outcome A.

Definition ret {A} (a : A) : M A := λ w, (w, Returned a).

Definition bind {A B} (m : M A) (k : A → M B) : M B :=
  λ w, match m w with
       | (w', Returned a) => k a w'
       | (w', Raised e) => (w', Raised e)
       end.

Definition raise {A} (e : exn) : M A := λ w, (w, Raised e).

(** An expression without effects that may raise. *)
Definition lift {A} (o : outcome A) : M A := λ w, (w, o).

(** [try: body except Exception as e: handler e]; what [body] did before it
    raised stays done. *)
Definition try_except {A} (body : M A) (handler : exn → M A) : M A :=
  λ w, match body w with
       | (w', Returned a) => (w', Returned a)
       | (w', Raised e) => handler e w'
       end.

Definition print (line : string) : M unit :=
  λ w, ({| stdout := stdout w ++ [line]; heap := heap w |}, Returned tt).

(** A constructor call: a new element without children.  On the values of
    this model (floats, strings) the folium constructors the script calls
    do not raise. *)
Definition new (p : Payload) : M nat :=
  λ w, ({| stdout := stdout w;
           heap := heap w ++ [{| payload := p; children := [] |}] |},
        Returned (length (heap w))).

(** [child.add_to(parent)]: the parent gets one more child; the call returns
    [child]. *)
Definition add_to (child parent : nat) : M nat :=
  λ w, ({| stdout := stdout w;
           heap := alter (λ e, {| payload := payload e;
                                  children := children e ++ [child] |})
                         parent (heap w) |},
        Returned child).

Declare Scope py_scope.
Delimit Scope py_scope with py.
Notation "x <- m ;; k" := (bind m (λ x, k))
  (at level 100, m at next level, right associativity) : py_scope.
Open Scope py_scope.

(** [for row in rows: body row] *)
Fixpoint for_each {A} (rows : list A) (body : A → M unit) : M unit :=
  match rows with
  | [] => ret tt
  | row :: rest => _ <- body row ;; for_each rest body
  end.

Declare Scope outcome_scope.
Delimit Scope outcome_scope with out.
Notation "x <- m ;; k" := (obind m (λ x, k))
  (at level 100, m at next level, right associativity) : outcome_scope.

(** ** get_street_network *)

Definition get_street_network {G} `{!Services G}
    (place_name network_type : string) : M Graph :=
  _ <- print ("--- Downloading street network for: " +:+ place_name
              +:+ " (" +:+ network_type +:+ " network) ---") ;;
  try_except
    (G_ <- lift (graph_from_place place_name network_type) ;;
     _ <- print ("Street network graph created with "
                 +:+ pretty (length (nodes G_)) +:+ " nodes and "
                 +:+ pretty (length (edges G_)) +:+ " edges.") ;;
     ret G_)
    (λ e,
     _ <- print ("Error downloading street network for " +:+ place_name
                 +:+ ": " +:+ exn_str e) ;;
     raise (mk_exn ValueError
              ("Could not retrieve street network for '" +:+ place_name
               +:+ "'. Check place name or network type."))).

(** ** get_points_of_interest *)

Definition get_points_of_interest {G} `{!Services G}
    (place_name : string) (tags : Tags) : M (list (POI G)) :=
  _ <- print ("--- Downloading Points of Interest for: " +:+ place_name
              +:+ " with tags: " +:+ format_tags tags +:+ " ---") ;;
  try_except
    (pois <- lift (features_from_place place_name tags) ;;
     _ <- print ("Found " +:+ pretty (length pois) +:+ " POIs of various types.") ;;
     _ <- match pois with
          | [] =>
              _ <- print ("No POIs found for " +:+ place_name
                          +:+ " with the given tags.") ;;
              raise (mk_exn ValueError
                       ("No POIs found for '" +:+ place_name
                        +:+ "' with the specified tags."))
          | _ => ret tt
          end ;;
     ret pois)
    (λ e,
     _ <- print ("Error downloading POIs for " +:+ place_name +:+ " with tags "
                 +:+ format_tags tags +:+ ": " +:+ exn_str e) ;;
     raise (mk_exn ValueError
              ("Could not retrieve POIs for '" +:+ place_name
               +:+ "'. Check tags or place name."))).

(** ** create_interactive_map *)

(** The geometry types that get a marker. *)
Definition marker_geom_types : list string := ["Point"; "Polygon"; "MultiPolygon"].

(** [(lon, lat)] of a row's geometry: the centroid's coordinates unless the
    geometry is a point.  The condition of the conditional expression is
    evaluated first, then the chosen pair from left to right. *)
Definition lon_lat {G} `{!Shapely G} (g : G) : outcome (float * float) :=
  (if negb (String.eqb (geom_type g) "Point") then
     c1 <- geom_centroid g ;;
     lon <- geom_x c1 ;;
     c2 <- geom_centroid g ;;
     lat <- geom_y c2 ;;
     Returned (lon, lat)
   else
     lon <- geom_x g ;;
     lat <- geom_y g ;;
     Returned (lon, lat))%out.

(** The pop-up text: the name, then the type taken from the first of the
    four tags whose value is true. *)
Definition popup_text_of `{!Unicode} {G} (row : POI G) : outcome string :=
  (let popup_text := Py.format (row_get row "name" (PyStr "Unnamed POI")) in
   if truthy (row_get row "tourism" PyNone) then
     v <- row_item row "tourism" ;;
     t <- replace_title v ;;
     Returned (popup_text +:+ "Type: " +:+ t)
   else if truthy (row_get row "amenity" PyNone) then
     v <- row_item row "amenity" ;;
     t <- replace_title v ;;
     Returned (popup_text +:+ "Type: " +:+ t)
   else if truthy (row_get row "leisure" PyNone) then
     v <- row_item row "leisure" ;;
     t <- replace_title v ;;
     Returned (popup_text +:+ "Type: " +:+ t)
   else if truthy (row_get row "shop" PyNone) then
     v <- row_item row "shop" ;;
     t <- replace_title v ;;
     Returned (popup_text +:+ "Type: " +:+ t)
   else Returned popup_text)%out.

(** [key in row and row[key] == lit]; the subscript is only evaluated when
    the key is there. *)
Definition row_is {G} (row : POI G) (key lit : string) : bool :=
  row_contains row key && eq_str (row_get row key PyNone) lit.

(** Icon colour, icon name and the cluster the marker goes to; the four
    arguments are the references held by [marker_cluster_attractions],
    [marker_cluster_cafes], [marker_cluster_parks], [marker_cluster_other]. *)
Definition poi_style {G} (row : POI G)
    (marker_cluster_attractions marker_cluster_cafes
     marker_cluster_parks marker_cluster_other : nat) : string * string * nat :=
  if row_is row "tourism" "attraction" then
    ("red", "star", marker_cluster_attractions)
  else if row_is row "amenity" "cafe" then
    ("green", "coffee", marker_cluster_cafes)
  else if row_is row "leisure" "park" then
    ("lightgreen", "tree", marker_cluster_parks)
  else
    ("blue", "info", marker_cluster_other).

(** The body of the loop over [pois_gdf.iterrows()]. *)
Definition add_poi_marker `{!Unicode} {G} `{!Shapely G}
    (marker_cluster_attractions marker_cluster_cafes
     marker_cluster_parks marker_cluster_other : nat) (row : POI G) : M unit :=
  match geometry row with
  | Some g =>
      if geom_bool g && bool_decide (geom_type g ∈ marker_geom_types) then
        try_except
          (ll <- lift (lon_lat g) ;;
           let '(lon, lat) := ll in
           popup_text <- lift (popup_text_of row) ;;
           let '(icon_color, icon_name, add_to_cluster) :=
             poi_style row marker_cluster_attractions marker_cluster_cafes
                       marker_cluster_parks marker_cluster_other in
           mk <- new (Marker {|
                   marker_location := (lat, lon);
                   marker_popup := {| popup_html := popup_text;
                                      popup_max_width := 300 |};
                   marker_icon := {| icon_color := icon_color;
                                     icon_name := icon_name;
                                     icon_prefix := "fa" |} |}) ;;
           _ <- add_to mk add_to_cluster ;;
           ret tt)
          (λ e,
           print ("Skipping POI '"
                  +:+ Py.format (row_get row "name" (PyStr "Unnamed"))
                  +:+ "' due to geometry error: " +:+ exn_str e))
      else ret tt
  | None => ret tt
  end.

Definition street_style : Style :=
  {| style_color := "#8b0000"; style_weight := 2; style_opacity := 0.7 |}.

Definition street_tooltip : Tooltip :=
  {| tooltip_fields := ["name"];
     tooltip_aliases := ["Street Name:"];
     tooltip_localize := true |}.

Definition create_interactive_map `{!Unicode} {G} `{!Shapely G} `{!Services G}
    (graph : Graph) (pois_gdf : list (POI G)) (location_name : string)
    (initial_zoom : Z) : M nat :=
  _ <- print ("--- Creating interactive map for " +:+ location_name +:+ " ---") ;;
  center <- lift (calculate_graph_centroid graph) ;;
  let '(center_lat, center_lon) := center in
  _ <- print ("Map will be centered at: Lat " +:+ format_4f center_lat
              +:+ ", Lon " +:+ format_4f center_lon) ;;
  m <- new (FoliumMap (center_lat, center_lon) initial_zoom "OpenStreetMap") ;;
  _ <- print "Adding street network to map..." ;;
  edges_gdf <- lift (graph_to_gdfs_edges graph) ;;
  street_network <- new (GeoJson edges_gdf "Street Network"
                                 street_style street_tooltip) ;;
  _ <- add_to street_network m ;;
  _ <- print "Adding Points of Interest to map..." ;;
  attractions <- new (MarkerCluster "Attractions") ;;
  marker_cluster_attractions <- add_to attractions m ;;
  cafes <- new (MarkerCluster "Cafes") ;;
  marker_cluster_cafes <- add_to cafes m ;;
  parks <- new (MarkerCluster "Parks") ;;
  marker_cluster_parks <- add_to parks m ;;
  other <- new (MarkerCluster "Other POIs") ;;
  marker_cluster_other <- add_to other m ;;
  _ <- for_each pois_gdf
         (add_poi_marker marker_cluster_attractions marker_cluster_cafes
                         marker_cluster_parks marker_cluster_other) ;;
  layer_control <- new LayerControl ;;
  _ <- add_to layer_control m ;;
  _ <- print "Interactive map created successfully." ;;
  ret m.

(** The default of [initial_zoom]. *)
Definition default_initial_zoom : Z := 14.

(** ** Reading the map document back from the store *)

Inductive Layer :=
| StreetLayer (name : string) (data : list Edge)
| ClusterLayer (name : string) (markers : list MarkerData)
| ControlLayer.

Record MapDocument := {
  doc_center : float * float;
  doc_zoom : Z;
  doc_tiles : string;
  doc_layers : list Layer
}.

Definition marker_at (h : list Element) (i : nat) : option MarkerData :=
  e ← h !! i;
  match payload e with
  | Marker d => Some d
  | _ => None
  end.

Definition layer_at (h : list Element) (i : nat) : option Layer :=
  e ← h !! i;
  match payload e with
  | GeoJson data name _ _ => Some (StreetLayer name data)
  | MarkerCluster name => ClusterLayer name <$> mapM (marker_at h) (children e)
  | LayerControl => Some ControlLayer
  | _ => None
  end.

(** The document whose root is the map object [m], read from the elements
    [h]: its centre, zoom, tiles and its layers in the order they were
    added, every cluster with its markers in the order they were added. *)
Definition document (h : list Element) (m : nat) : option MapDocument :=
  e ← h !! m;
  match payload e with
  | FoliumMap location zoom_start tiles =>
      layers ← mapM (layer_at h) (children e);
      Some {| doc_center := location; doc_zoom := zoom_start;
              doc_tiles := tiles; doc_layers := layers |}
  | _ => None
  end.

(** The markers of the first cluster layer called [name], if there is one. *)
Fixpoint find_cluster (name : string) (layers : list Layer)
    : option (list MarkerData) :=
  match layers with
  | [] => None
  | ClusterLayer n ms :: rest =>
      if String.eqb n name then Some ms else find_cluster name rest
  | _ :: rest => find_cluster name rest
  end.

Definition cluster_markers (doc : MapDocument) (name : string)
    : option (list MarkerData) :=
  find_cluster name (doc_layers doc).

(** The names of the cluster layers with the number of their markers. *)
Definition cluster_counts (doc : MapDocument) : list (string * nat) :=
  omap (λ l, match l with
             | ClusterLayer n ms => Some (n, length ms)
             | _ => None
             end) (doc_layers doc).

Definition is_control (l : Layer) : bool :=
  match l with
  | ControlLayer => true
  | _ => false
  end.

(** The number of layer controls of the document. *)
Definition layer_controls (doc : MapDocument) : nat :=
  length (List.filter is_control (doc_layers doc)).

(** ** What the specification speaks of *)





(** The four buckets and the ordered rule table of the classification. *)
Inductive Cluster := Attractions | Cafes | Parks | OtherPOIs.

#[global] Instance Cluster_eq_dec : EqDecision Cluster.
Proof. solve_decision. Defined.

Definition cluster_name (c : Cluster) : string :=
  match c with
  | Attractions => "Attractions"
  | Cafes => "Cafes"
  | Parks => "Parks"
  | OtherPOIs => "Other POIs"
  end.

Definition cluster_icon (c : Cluster) : Icon :=
  match c with
  | Attractions => {| icon_color := "red"; icon_name := "star"; icon_prefix := "fa" |}
  | Cafes => {| icon_color := "green"; icon_name := "coffee"; icon_prefix := "fa" |}
  | Parks => {| icon_color := "lightgreen"; icon_name := "tree"; icon_prefix := "fa" |}
  | OtherPOIs => {| icon_color := "blue"; icon_name := "info"; icon_prefix := "fa" |}
  end.

Record Rule := { rule_key : string; rule_value : string; rule_cluster : Cluster }.

Definition rules : list Rule :=
  [ {| rule_key := "tourism"; rule_value := "attraction"; rule_cluster := Attractions |};
    {| rule_key := "amenity"; rule_value := "cafe"; rule_cluster := Cafes |};
    {| rule_key := "leisure"; rule_value := "park"; rule_cluster := Parks |} ].

(** The row has the tag [key] with the value [value]. *)
Definition tagged {G} (row : POI G) (key value : string) : Prop :=
  attrs row !! key = Some (PyStr value).

#[global] Instance tagged_dec {G} (row : POI G) (key value : string) :
  Decision (tagged row key value).
Proof. unfold tagged. apply _. Defined.

Fixpoint first_match {G} (rs : list Rule) (row : POI G) : Cluster :=
  match rs with
  | [] => OtherPOIs
  | r :: rest =>
      if bool_decide (tagged row (rule_key r) (rule_value r))
      then rule_cluster r
      else first_match rest row
  end.

Definition classify {G} (row : POI G) : Cluster := first_match rules row.

(** The type tags in their order of priority; a tag is populated when it has
    a non-empty string for value. *)
Definition type_tags : list string := ["tourism"; "amenity"; "leisure"; "shop"].

Definition populated {G} (row : POI G) (key : string) : option string :=
  match attrs row !! key with
  | Some (PyStr s) => if String.eqb s "" then None else Some s
  | _ => None
  end.

Fixpoint first_populated {G} (keys : list string) (row : POI G) : option string :=
  match keys with
  | [] => None
  | key :: rest =>
      match populated row key with
      | Some s => Some s
      | None => first_populated rest row
      end
  end.

(** Underscores replaced by spaces, then title case. *)
Definition human_format `{!Unicode} (s : string) : string :=
  title (replace_char "_"%char " "%char s).

(** Position [i] of [s] starts a word: it is the first, or the character
    before it is not a letter. *)
Definition word_start (s : string) (i : nat) : bool :=
  match i with
  | O => true
  | S j =>
      match String.get j s with
      | Some previous => negb (is_cased previous)
      | None => true
      end
  end.

(** The name of a row: the string in its [name] column, or the default
    when the name is absent (the frame has no such column, or the row has no
    value in it). *)
Definition display_name {G} (row : POI G) : string :=
  match attrs row !! "name" with
  | Some (PyStr name) => name
  | _ => "Unnamed POI"
  end.

(** The type string of a row: empty when none of the tags is populated. *)
Definition type_string_from `{!Unicode} {G} (keys : list string) (row : POI G)
    : string :=
  match first_populated keys row with
  | Some s => "Type: " +:+ human_format s
  | None => ""
  end.

Definition type_string `{!Unicode} {G} (row : POI G) : string :=
  type_string_from type_tags row.

Definition label `{!Unicode} {G} (row : POI G) : string :=
  display_name row +:+ type_string row.

(** ** What a row contributes to the map *)

(** The marker the loop body builds for a row with geometry [g], or the
    exception it raises on the way. *)
Definition marker_of `{!Unicode} {G} `{!Shapely G} (g : G) (row : POI G)
    : outcome MarkerData :=
  (ll <- lon_lat g ;;
   popup_text <- popup_text_of row ;;
   let style := poi_style row 0 0 0 0 in
   Returned {| marker_location := (ll.2, ll.1);
               marker_popup := {| popup_html := popup_text;
                                  popup_max_width := 300 |};
               marker_icon := {| icon_color := style.1.1;
                                 icon_name := style.1.2;
                                 icon_prefix := "fa" |} |})%out.

(** [None] when the test on the geometry keeps the row out of the [try]. *)
Definition row_outcome `{!Unicode} {G} `{!Shapely G} (row : POI G)
    : option (outcome MarkerData) :=
  match geometry row with
  | Some g =>
      if geom_bool g && bool_decide (geom_type g ∈ marker_geom_types)
      then Some (marker_of g row)
      else None
  | None => None
  end.

Definition placed `{!Unicode} {G} `{!Shapely G} (row : POI G) : option MarkerData :=
  match row_outcome row with
  | Some (Returned d) => Some d
  | _ => None
  end.

(** The line printed for a row on which the [try] block raises [e]. *)
Definition skipping {G} (row : POI G) (e : exn) : string :=
  "Skipping POI '" +:+ Py.format (row_get row "name" (PyStr "Unnamed"))
  +:+ "' due to geometry error: " +:+ exn_str e.

Definition skip_line `{!Unicode} {G} `{!Shapely G} (row : POI G) : option string :=
  match row_outcome row with
  | Some (Raised e) => Some (skipping row e)
  | _ => None
  end.

(** The markers the rows contribute to a cluster, in row order. *)
Definition markers_for `{!Unicode} {G} `{!Shapely G} (c : Cluster) (pois : list (POI G))
    : list MarkerData :=
  omap (λ row, if decide (classify row = c) then placed row else None) pois.

(** The document the map builder is expected to leave. *)
Definition expected_document `{!Unicode} {G} `{!Shapely G}
    (center : float * float) (zoom : Z) (street_edges : list Edge) (pois : list (POI G))
    : MapDocument :=
  {| doc_center := center;
     doc_zoom := zoom;
     doc_tiles := "OpenStreetMap";
     doc_layers :=
       [ StreetLayer "Street Network" street_edges;
         ClusterLayer "Attractions" (markers_for Attractions pois);
         ClusterLayer "Cafes" (markers_for Cafes pois);
         ClusterLayer "Parks" (markers_for Parks pois);
         ClusterLayer "Other POIs" (markers_for OtherPOIs pois);
         ControlLayer ] |}.

(** The lines the map builder prints when it gets to the end. *)
Definition expected_log `{!Unicode} {G} `{!Shapely G} `{!Services G}
    (center : float * float) (location_name : string) (pois : list (POI G)) : list string :=
  [ "--- Creating interactive map for " +:+ location_name +:+ " ---";
    "Map will be centered at: Lat " +:+ format_4f center.1
      +:+ ", Lon " +:+ format_4f center.2;
    "Adding street network to map...";
    "Adding Points of Interest to map..." ]
  ++ omap skip_line pois
  ++ [ "Interactive map created successfully." ].

(** ** The store after the map builder's steps *)

(** The elements after [Constructor(...).add_to(parent)]: a new element
    with payload [p] at the end, and its reference appended to the children
    of [parent]. *)
Definition attach (p : Payload) (parent : nat) (h : list Element) : list Element :=
  alter (λ e, {| payload := payload e; children := children e ++ [length h] |})
        parent (h ++ [{| payload := p; children := [] |}]).

(** The reference of a cluster, given the four references the loop holds. *)
Definition cluster_ref (attractions cafes parks other : nat) (c : Cluster) : nat :=
  match c with
  | Attractions => attractions
  | Cafes => cafes
  | Parks => parks
  | OtherPOIs => other
  end.

(** The elements after the loop over the rows. *)
Fixpoint place_all `{!Unicode} {G} `{!Shapely G} (ref : Cluster → nat) (pois : list (POI G))
    (h : list Element) : list Element :=
  match pois with
  | [] => h
  | row :: rest =>
      place_all ref rest
        match placed row with
        | Some d => attach (Marker d) (ref (classify row)) h
        | None => h
        end
  end.

(** The elements when the loop starts, [h] being the elements before the
    call: the map object at [length h], then the street layer and the four
    clusters, all attached to the map. *)
Definition before_loop (center : float * float) (zoom : Z) (street_edges : list Edge)
    (h : list Element) : list Element :=
  let m := length h in
  attach (MarkerCluster "Other POIs") m
    (attach (MarkerCluster "Parks") m
       (attach (MarkerCluster "Cafes") m
          (attach (MarkerCluster "Attractions") m
             (attach (GeoJson street_edges "Street Network" street_style street_tooltip) m
                (h ++ [{| payload := FoliumMap center zoom "OpenStreetMap";
                          children := [] |}]))))).

(** The references of the four clusters when the map object is at [m]. *)
Definition refs_from (m : nat) : Cluster → nat :=
  cluster_ref (m + 2) (m + 3) (m + 4) (m + 5).

(** The elements when the map builder returns. *)
Definition built `{!Unicode} {G} `{!Shapely G} (center : float * float) (zoom : Z)
    (street_edges : list Edge) (pois : list (POI G)) (h : list Element)
    : list Element :=
  attach LayerControl (length h)
    (place_all (refs_from (length h)) pois (before_loop center zoom street_edges h)).

(** From [h] to [h']: every element is still there with its payload, and
    with its children unless its reference is in [touched]. *)
Definition evolves (touched : nat → Prop) (h h' : list Element) : Prop :=
  ∀ i e, h !! i = Some e →
    ∃ e', h' !! i = Some e' ∧ payload e' = payload e ∧
          (¬ touched i → children e' = children e).

(** ** Fixtures: planar shapes, canned services *)

(** The fixtures hold ASCII strings only. *)
#[global] Instance ascii_only : Unicode := {| title_beyond_ascii := λ s, s |}.

Open Scope float_scope.

(** A geometry given by what shapely reports of it: its type, its
    coordinate sequence and its centroid.  All fixtures are non-empty. *)
Record Shape := {
  shape_type : string;
  shape_coords : list (float * float);
  shape_centroid : float * float
}.

Definition point (x y : float) : Shape :=
  {| shape_type := "Point"; shape_coords := [(x, y)]; shape_centroid := (x, y) |}.

Definition cross (p q : float * float) : float := p.1 * q.2 - q.1 * p.2.

(** Over the edges of a closed ring: twice the signed area, and the sums
    whose quotients by three times that are the coordinates of the area
    centroid. *)
Fixpoint ring_sums (ring : list (float * float)) : float * float * float :=
  match ring with
  | p :: rest =>
      match rest with
      | q :: _ =>
          let '(a, sx, sy) := ring_sums rest in
          let c := cross p q in
          (c + a, (p.1 + q.1) * c + sx, (p.2 + q.2) * c + sy)
      | [] => (0, 0, 0)
      end
  | [] => (0, 0, 0)
  end.

Definition ring_centroid (ring : list (float * float)) : float * float :=
  let '(a, sx, sy) := ring_sums ring in
  (sx / (3 * a), sy / (3 * a)).

(** A polygon without holes whose ring (first vertex repeated at the end)
    encloses a non-zero area. *)
Definition polygon (ring : list (float * float)) : Shape :=
  {| shape_type := "Polygon"; shape_coords := ring;
     shape_centroid := ring_centroid ring |}.

(** The segment from [p] to [q]; its centroid is its midpoint. *)
Definition segment (p q : float * float) : Shape :=
  {| shape_type := "LineString"; shape_coords := [p; q];
     shape_centroid := ((p.1 + q.1) / 2, (p.2 + q.2) / 2) |}.

Definition shape_attribute (s : Shape) (attribute : string)
    (pick : float * float → float) : outcome float :=
  match shape_coords s with
  | [c] =>
      if String.eqb (shape_type s) "Point" then Returned (pick c)
      else Raised (mk_exn AttributeError
                     ("'" +:+ shape_type s +:+ "' object has no attribute '"
                      +:+ attribute +:+ "'"))
  | _ => Raised (mk_exn AttributeError
                   ("'" +:+ shape_type s +:+ "' object has no attribute '"
                    +:+ attribute +:+ "'"))
  end.

#[global] Instance fixture_shapely : Shapely Shape := {|
  geom_type := shape_type;
  geom_bool := λ _, true;
  geom_x := λ s, shape_attribute s "x" fst;
  geom_y := λ s, shape_attribute s "y" snd;
  geom_centroid := λ s, Returned (point (shape_centroid s).1 (shape_centroid s).2)
|}.

(** [f"{x:.4f}"]: the decimal expansion of the binary64 number with four
    decimals, rounded half to even. *)
Definition round_half_even (q : Q) : Z :=
  let f := Qfloor q in
  let r := (q - inject_Z f)%Q in
  match Qcompare r (1 # 2) with
  | Lt => f
  | Gt => (f + 1)%Z
  | Eq => if Z.even f then f else (f + 1)%Z
  end.

Definition pad4 (digits : string) : string :=
  match String.length digits with
  | 1%nat => "000" +:+ digits
  | 2%nat => "00" +:+ digits
  | 3%nat => "0" +:+ digits
  | _ => digits
  end.

(** The number [mantissa * 2 ^ exponent]. *)
Definition magnitude (mantissa : positive) (exponent : Z) : Q :=
  match exponent with
  | Z0 => Zpos mantissa # 1
  | Zpos p => (Zpos mantissa * Z.pow_pos 2 p) # 1
  | Zneg p => Zpos mantissa # Pos.pow 2 p
  end.

Definition fixed4 (x : float) : string :=
  match Prim2SF x with
  | S754_nan => "nan"
  | S754_infinity negative => if negative then "-inf" else "inf"
  | S754_zero negative => (if negative then "-" else "") +:+ "0.0000"
  | S754_finite negative mantissa exponent =>
      let n := round_half_even (magnitude mantissa exponent * 10000)%Q in
      (if negative then "-" else "")
      +:+ pretty (n / 10000)%Z +:+ "." +:+ pad4 (pretty (n mod 10000)%Z)
  end.

(** [repr] of a tag dictionary whose strings have no quotes or escapes. *)
Definition repr_str (s : string) : string := "'" +:+ s +:+ "'".

Fixpoint join (sep : string) (parts : list string) : string :=
  match parts with
  | [] => ""
  | [part] => part
  | part :: rest => part +:+ sep +:+ join sep rest
  end.

Definition repr_filter (f : TagFilter) : string :=
  match f with
  | TagValue v => repr_str v
  | TagValues vs => "[" +:+ join ", " (map repr_str vs) +:+ "]"
  | TagFlag true => "True"
  | TagFlag false => "False"
  end.

Definition repr_tags (tags : Tags) : string :=
  "{" +:+ join ", " (map (λ kf, repr_str kf.1 +:+ ": " +:+ repr_filter kf.2) tags)
  +:+ "}".

(** Services that answer every query with the same outcome; the edges of a
    graph are handed over as they are. *)
Definition canned_services (network : outcome Graph)
    (features : outcome (list (POI Shape))) : Services Shape := {|
  graph_from_place := λ _ _, network;
  features_from_place := λ _ _, features;
  graph_to_gdfs_edges := λ graph, Returned (edges graph);
  format_4f := fixed4;
  format_tags := repr_tags
|}.

Definition offline : exn :=
  mk_exn (OtherException "ConnectionError") "Max retries exceeded".

Definition no_services : Services Shape :=
  canned_services (Raised offline) (Raised offline).

(** The feature query answers, with no row. *)
Definition found_nothing : Services Shape :=
  canned_services (Raised offline) (Returned []).

Definition float_has_no_replace : exn :=
  mk_exn AttributeError "'float' object has no attribute 'replace'".

Definition node (lat lon : float) : NodeData := {| node_x := lon; node_y := lat |}.

(** Three nodes at (lat, lon) = (10, 20), (20, 30), (30, 40) and two streets. *)
Definition three_nodes : Graph :=
  {| nodes := [(1%Z, node 10 20); (2%Z, node 20 30); (3%Z, node 30 40)];
     edges := [ {| edge_u := 1; edge_v := 2; edge_key := 0;
                   edge_name := Some "Getreidegasse" |};
                {| edge_u := 2; edge_v := 3; edge_key := 0;
                   edge_name := None |} ] |}.

Definition empty_graph : Graph := {| nodes := []; edges := [] |}.

Definition empty_world : World := {| stdout := []; heap := [] |}.

(** The record [{tourism: "attraction", name: "Castle"}] at a point, and a
    record without geometry. *)
Definition castle : POI Shape :=
  {| geometry := Some (point 13 47);
     attrs := {[ "tourism" := PyStr "attraction"; "name" := PyStr "Castle" ]} |}.

Definition no_geometry : POI Shape :=
  {| geometry := None; attrs := ∅ |}.

(** A dart: the reflex vertex (0, 1) is the centroid of the area. *)
Definition dart_ring : list (float * float) :=
  [(-1, 0); (0, 1); (1, 0); (0, 2); (-1, 0)].

Definition dart_park : POI Shape :=
  {| geometry := Some (polygon dart_ring);
     attrs := {[ "leisure" := PyStr "park"; "name" := PyStr "Dart Park" ]} |}.

(** A cafe in a collection that also has a [tourism] column: the cell is
    [nan] for this row. *)
Definition nan_cafe : POI Shape :=
  {| geometry := Some (point 13.04 47.8);
     attrs := {[ "tourism" := PyNaN; "amenity" := PyStr "cafe";
                 "name" := PyStr "Tomaselli" ]} |}.

Definition riverside : POI Shape :=
  {| geometry := Some (segment (0, 0)%float (2, 0)%float);
     attrs := {[ "leisure" := PyStr "park"; "name" := PyStr "Riverside" ]} |}.

Definition museum_cafe : POI Shape :=
  {| geometry := Some (point 13 47.8);
     attrs := {[ "tourism" := PyStr "attraction"; "amenity" := PyStr "cafe" ]} |}.

Definition fast_food : POI Shape :=
  {| geometry := Some (point 13 48);
     attrs := {[ "tourism" := PyNone; "amenity" := PyStr "fast_food";
                 "shop" := PyStr "bakery"; "name" := PyStr "Imbiss" ]} |}.

(** A frame as a query for several tags gives it: every row has every
    column, with [nan] where the element has no such tag. *)
Definition frame_castle : POI Shape :=
  {| geometry := Some (point 13.05 47.795);
     attrs := {[ "name" := PyStr "Castle"; "tourism" := PyStr "attraction";
                 "amenity" := PyNaN; "leisure" := PyNaN ]} |}.

Definition frame_cafe : POI Shape :=
  {| geometry := Some (point 13.04 47.8);
     attrs := {[ "name" := PyStr "Tomaselli"; "tourism" := PyNaN;
                 "amenity" := PyStr "cafe"; "leisure" := PyNaN ]} |}.

Definition frame_park : POI Shape :=
  {| geometry := Some (point 13.04 47.805);
     attrs := {[ "name" := PyStr "Mirabellgarten"; "tourism" := PyNaN;
                 "amenity" := PyNaN; "leisure" := PyStr "park" ]} |}.

Definition mixed_frame : list (POI Shape) := [frame_castle; frame_cafe; frame_park].

(** An attraction without a name, in a frame in which other rows have one. *)
Definition nameless_fountain : POI Shape :=
  {| geometry := Some (point 13.045 47.8);
     attrs := {[ "name" := PyNaN; "tourism" := PyStr "attraction";
                 "amenity" := PyNaN; "leisure" := PyNaN ]} |}.

Definition sample_pois : list (POI Shape) :=
  [castle; no_geometry; dart_park; nan_cafe; riverside; museum_cafe; fast_food].

Definition sample_tags : Tags :=
  [("tourism", TagValues ["attraction"; "museum"]);
   ("amenity", TagValues ["cafe"; "restaurant"]);
   ("leisure", TagValue "park")].

(** The map builder run on the samples, from an empty store. *)
Definition sample_run : World * outcome nat :=
  @create_interactive_map ascii_only Shape fixture_shapely no_services
    three_nodes sample_pois "Salzburg, Austria" default_initial_zoom empty_world.

Close Scope float_scope.

(** ** The script run as a program *)

(** The default of [network_type]. *)
Definition default_network_type : string := "walk".

Definition poi_tags : Tags :=
  [("tourism", TagValues ["attraction"; "museum"]);
   ("amenity", TagValues ["cafe"; "restaurant"]);
   ("leisure", TagValue "park")].

(** [isinstance(e, ValueError)]: of the classes named here only
    [ValueError] is one; for any other class the hierarchy decides. *)
Definition isinstance_ValueError (subclass_of_ValueError : string → bool)
    (e : exn) : bool :=
  match exn_type e with
  | ValueError => true
  | AttributeError => false
  | KeyError => false
  | OtherException class_name => subclass_of_ValueError class_name
  end.

(** The block under [if __name__ == "__main__"].  [save] is the method
    [folium.Map.save] (it renders the map and writes the file: whatever it
    does to the state, and whether it raises, is its own), and
    [subclass_of_ValueError] the class hierarchy of the exceptions the
    libraries raise. *)
Definition main `{!Unicode} {G} `{!Shapely G} `{!Services G}
    (save : nat → string → M unit) (subclass_of_ValueError : string → bool)
    : M unit :=
  let place := "Salzburg, Austria" in
  try_except
    (G_salzburg <- get_street_network place default_network_type ;;
     pois_salzburg <- get_points_of_interest place poi_tags ;;
     salzburg_map <- create_interactive_map G_salzburg pois_salzburg place
                       default_initial_zoom ;;
     _ <- save salzburg_map "salzburg_interactive_map.html" ;;
     print "Map saved as salzburg_interactive_map.html")
    (λ e,
     if isinstance_ValueError subclass_of_ValueError e
     then print ("An error occurred: " +:+ exn_str e)
     else print ("An unexpected error occurred: " +:+ exn_str e)).

(** The errors the two fetchers raise. *)
Definition network_error (place_name : string) : exn :=
  mk_exn ValueError
    ("Could not retrieve street network for '" +:+ place_name
     +:+ "'. Check place name or network type.").

Definition pois_error (place_name : string) : exn :=
  mk_exn ValueError
    ("Could not retrieve POIs for '" +:+ place_name
     +:+ "'. Check tags or place name.").

(** ** More readings of the store and of the rows *)

(** The references of the children of the element at [i]. *)
Definition children_at (h : list Element) (i : nat) : list nat :=
  match h !! i with
  | Some e => children e
  | None => []
  end.

(** The references held by the four clusters of the map at [m], one
    cluster after the other. *)
Definition all_cluster_children (h : list Element) (m : nat) : list nat :=
  children_at h (m + 2) ++ children_at h (m + 3)
  ++ children_at h (m + 4) ++ children_at h (m + 5).

(** The first cell among [keys] that is true, as the [if]/[elif] chain of the
    pop-up text finds it. *)
Fixpoint first_true_cell {G} (keys : list string) (row : POI G) : option pyval :=
  match keys with
  | [] => None
  | key :: rest =>
      if truthy (row_get row key PyNone) then Some (row_get row key PyNone)
      else first_true_cell rest row
  end.

(** The row gets into the [try] block. *)
Definition enters_try {G} `{!Shapely G} (row : POI G) : bool :=
  match geometry row with
  | Some g => geom_bool g && bool_decide (geom_type g ∈ marker_geom_types)
  | None => false
  end.

(** ** More fixtures *)

(** Shapely geometries that may be empty: [POLYGON EMPTY], whose centroid
    is [POINT EMPTY], besides the shapes above.  Empty geometries are false;
    an empty point has no coordinate to give for [x] (shapely 1.8 raises an
    [IndexError] there). *)
Inductive MaybeEmpty :=
| EmptyPolygon
| EmptyPoint
| NonEmpty (s : Shape).

Definition no_coordinate : exn :=
  mk_exn (OtherException "IndexError") "list index out of range".

#[global] Instance maybe_empty_shapely : Shapely MaybeEmpty := {|
  geom_type := λ g, match g with
                    | EmptyPolygon => "Polygon"
                    | EmptyPoint => "Point"
                    | NonEmpty s => shape_type s
                    end;
  geom_bool := λ g, match g with NonEmpty _ => true | _ => false end;
  geom_x := λ g, match g with
                 | EmptyPolygon =>
                     Raised (mk_exn AttributeError "'Polygon' object has no attribute 'x'")
                 | EmptyPoint => Raised no_coordinate
                 | NonEmpty s => shape_attribute s "x" fst
                 end;
  geom_y := λ g, match g with
                 | EmptyPolygon =>
                     Raised (mk_exn AttributeError "'Polygon' object has no attribute 'y'")
                 | EmptyPoint => Raised no_coordinate
                 | NonEmpty s => shape_attribute s "y" snd
                 end;
  geom_centroid := λ g, match g with
                        | NonEmpty s =>
                            Returned (NonEmpty (point (shape_centroid s).1
                                                      (shape_centroid s).2))
                        | _ => Returned EmptyPoint
                        end
|}.

Definition empty_lot : POI MaybeEmpty :=
  {| geometry := Some EmptyPolygon;
     attrs := {[ "leisure" := PyStr "park"; "name" := PyStr "Empty Lot" ]} |}.

Definition services_for_maybe_empty : Services MaybeEmpty := {|
  graph_from_place := λ _ _, Returned three_nodes;
  features_from_place := λ _ _, Returned [empty_lot];
  graph_to_gdfs_edges := λ graph, Returned (edges graph);
  format_4f := fixed4;
  format_tags := repr_tags
|}.

(** Services that find the three-node network and the sample rows. *)
Definition salzburg_services : Services Shape :=
  canned_services (Returned three_nodes) (Returned sample_pois).

(** A [save] that writes its file and touches nothing else. *)
Definition save_writes : nat → string → M unit := λ _ _, ret tt.

(** A hierarchy in which no library exception derives from [ValueError]. *)
Definition no_subclass : string → bool := λ _, false.

(** A network of one node and no street, and services whose conversion of
    the edges refuses a graph without edges. *)
Definition lonely_node : Graph :=
  {| nodes := [(7%Z, node 47 13)]; edges := [] |}%float.

Definition no_edges : exn := mk_exn ValueError "Graph contains no edges".

Definition strict_services (network : outcome Graph)
    (features : outcome (list (POI Shape))) : Services Shape := {|
  graph_from_place := λ _ _, network;
  features_from_place := λ _ _, features;
  graph_to_gdfs_edges := λ graph,
    match edges graph with
    | [] => Raised no_edges
    | street_edges => Returned street_edges
    end;
  format_4f := fixed4;
  format_tags := repr_tags
|}.

(** * Properties *)

(** ** Strings *)

Lemma replace_char_get old new s i :
  String.get i (replace_char old new s) =
    (λ c, if Ascii.eqb c old then new else c) <$> String.get i s.
Proof.
  revert i. induction s as [|c s IH]; intros i; simpl; [done|].
  destruct i; [done | apply IH].
Qed.

Lemma title_from_get previous_is_cased s i c :
  String.get i s = Some c →
  String.get i (title_from previous_is_cased s) =
    Some (if match i with
             | O => previous_is_cased
             | S j => match String.get j s with
                      | Some previous => is_cased previous
                      | None => false
                      end
             end
          then to_lower c else to_upper c).
Proof.
  revert previous_is_cased i.
  induction s as [|c0 s IH]; intros b i Hget; simpl in *; [done|].
  destruct i as [|i]; [by simplify_eq|].
  rewrite (IH _ _ Hget). by destruct i.
Qed.

(** What [v.replace('_', ' ').title()] does to a string of ASCII
    characters, position by position: an underscore becomes a space, a
    letter that starts a word becomes upper case, any other letter lower
    case, and nothing else changes. *)
Lemma all_ascii_replace_char old new s :
  (nat_of_ascii new <? 128)%nat = true →
  all_ascii s = true → all_ascii (replace_char old new s) = true.
Proof.
  intros Hnew. induction s as [|c s IH]; simpl; [done|].
  intros [Hc Hs]%andb_prop. rewrite (IH Hs), andb_true_r.
  by destruct (Ascii.eqb c old).
Qed.

Lemma human_format_ascii `{!Unicode} s :
  all_ascii s = true →
  human_format s = title_from false (replace_char "_" " " s).
Proof.
  intros Hs. unfold human_format, title.
  by rewrite all_ascii_replace_char.
Qed.

Lemma human_format_get `{!Unicode} s i c :
  all_ascii s = true →
  String.get i s = Some c →
  String.get i (human_format s) =
    Some (let c' := if Ascii.eqb c "_" then " "%char else c in
          if word_start s i then to_upper c' else to_lower c').
Proof.
  intros Hs Hget. rewrite (human_format_ascii _ Hs).
  erewrite title_from_get; last by rewrite replace_char_get, Hget.
  simpl. f_equal. destruct i as [|i]; [done|]. simpl.
  rewrite replace_char_get.
  destruct (String.get i s) as [p|]; simpl; [|done].
  destruct (Ascii.eqb_spec p "_") as [->|_]; [done|].
  by destruct (is_cased p).
Qed.

Example human_format_fast_food : @human_format ascii_only "fast_food" = "Fast Food".
Proof. reflexivity. Qed.

Example human_format_upper : @human_format ascii_only "ATM_point" = "Atm Point".
Proof. reflexivity. Qed.

(** ** The centroid *)





(** C2.  On a graph without nodes [calculate_graph_centroid] raises the
    [ValueError] "Graph has no nodes to calculate a centroid." and returns
    nothing. *)
Theorem centroid_of_empty_graph_raises (graph : Graph) :
  nodes graph = [] →
  calculate_graph_centroid graph =
    Raised (mk_exn ValueError "Graph has no nodes to calculate a centroid.").
Proof. unfold calculate_graph_centroid. by intros ->. Qed.

(** ** The two fetchers share one message *)

(** C3.  When the query returns no row, [get_points_of_interest] raises a
    [ValueError] whose message names the place, and it is the very exception
    it raises when the query itself fails: the "No POIs found" error raised
    inside the [try] is caught by the [except Exception] below it and
    replaced. *)
Theorem no_pois_raises_the_fetch_failure_error {G}
    (found_nothing unreachable : Services G)
    (place_name : string) (tags : Tags) (cause : exn) (w : World) :
  @features_from_place G found_nothing place_name tags = Returned [] →
  @features_from_place G unreachable place_name tags = Raised cause →
  (@get_points_of_interest G found_nothing place_name tags w).2 =
    Raised (mk_exn ValueError
              ("Could not retrieve POIs for '" +:+ place_name
               +:+ "'. Check tags or place name.")) ∧
  (@get_points_of_interest G unreachable place_name tags w).2 =
    (@get_points_of_interest G found_nothing place_name tags w).2.
Proof.
  intros Hnone Hfail.
  unfold get_points_of_interest, bind, try_except, lift, print, raise.
  simpl. rewrite Hnone, Hfail. simpl. done.
Qed.

(** ** The store *)

Lemma length_attach p parent h : length (attach p parent h) = S (length h).
Proof. unfold attach. rewrite length_alter, length_app. simpl. lia. Qed.

Lemma attach_lookup_parent p parent h e :
  h !! parent = Some e →
  attach p parent h !! parent =
    Some {| payload := payload e; children := children e ++ [length h] |}.
Proof.
  intros He. unfold attach. rewrite list_lookup_alter_eq.
  rewrite lookup_app_l by (by eapply lookup_lt_Some). by rewrite He.
Qed.

Lemma attach_lookup_new p parent h :
  parent ≠ length h →
  attach p parent h !! length h = Some {| payload := p; children := [] |}.
Proof.
  intros Hne. unfold attach. rewrite list_lookup_alter_ne by done.
  rewrite lookup_app_r by lia. by rewrite Nat.sub_diag.
Qed.

Lemma evolves_refl T h : evolves T h h.
Proof. intros i e He. by exists e. Qed.

Lemma evolves_trans T h1 h2 h3 :
  evolves T h1 h2 → evolves T h2 h3 → evolves T h1 h3.
Proof.
  intros H12 H23 i e He.
  destruct (H12 i e He) as (e2 & He2 & Hp2 & Hc2).
  destruct (H23 i e2 He2) as (e3 & He3 & Hp3 & Hc3).
  exists e3. split; [done|]. split; [congruence|].
  intros Hi. rewrite Hc3, Hc2; done.
Qed.

Lemma evolves_weaken (T T' : nat → Prop) h h' :
  (∀ i, T i → T' i) → evolves T h h' → evolves T' h h'.
Proof.
  intros Hsub Hev i e He. destruct (Hev i e He) as (e' & ? & ? & Hc).
  exists e'. split; [done|]. split; [done|]. intros Hi. apply Hc. naive_solver.
Qed.

Lemma evolves_push T h e : evolves T h (h ++ [e]).
Proof.
  intros i e0 He. exists e0. split; [|done].
  rewrite lookup_app_l; [done | by eapply lookup_lt_Some].
Qed.

Lemma evolves_attach p parent h : evolves (λ i, i = parent) h (attach p parent h).
Proof.
  intros i e He. pose proof (lookup_lt_Some _ _ _ He) as Hlt.
  destruct (decide (i = parent)) as [->|Hne].
  - eexists. split; [by apply attach_lookup_parent|]. simpl. split; [done|].
    intros []; done.
  - exists e. split; [|done]. unfold attach.
    rewrite list_lookup_alter_ne by done. by rewrite lookup_app_l.
Qed.

Lemma evolves_length T h h' : evolves T h h' → length h ≤ length h'.
Proof.
  intros Hev. destruct (decide (length h ≤ length h')) as [|Hgt]; [done|].
  destruct (lookup_lt_is_Some_2 h (length h')) as [e He]; [lia|].
  destruct (Hev _ _ He) as (e' & He' & _).
  apply lookup_lt_Some in He'. lia.
Qed.

Lemma marker_at_evolves T h h' i d :
  evolves T h h' → marker_at h i = Some d → marker_at h' i = Some d.
Proof.
  unfold marker_at. intros Hev Hm.
  destruct (h !! i) as [e|] eqn:He; simplify_eq/=.
  destruct (Hev _ _ He) as (e' & -> & Hp & _). simpl. by rewrite Hp.
Qed.

Lemma markers_at_evolves T h h' kids ms :
  evolves T h h' →
  mapM (marker_at h) kids = Some ms → mapM (marker_at h') kids = Some ms.
Proof.
  intros Hev. rewrite !mapM_Some. intros Hall.
  eapply Forall2_impl; [exact Hall|].
  intros i d. by apply (marker_at_evolves T).
Qed.

Lemma layer_at_evolves T h h' i l :
  evolves T h h' → ¬ T i → layer_at h i = Some l → layer_at h' i = Some l.
Proof.
  unfold layer_at. intros Hev Hi Hl.
  destruct (h !! i) as [e|] eqn:He; simplify_eq/=.
  destruct (Hev _ _ He) as (e' & -> & Hp & Hc). simpl.
  rewrite Hp, (Hc Hi). destruct (payload e); try done.
  destruct (mapM (marker_at h) (children e)) as [ms|] eqn:Hms; simplify_eq/=.
  by rewrite (markers_at_evolves _ _ _ _ _ Hev Hms).
Qed.

Lemma layer_at_lt h i l : layer_at h i = Some l → i < length h.
Proof.
  unfold layer_at. destruct (h !! i) eqn:He; [|done].
  intros _. by eapply lookup_lt_Some.
Qed.

(** A document read from [h] reads the same from any [h'] that [h] evolves
    to by touching new elements only. *)
Lemma document_evolves T h h' m doc :
  evolves T h h' → (∀ i, T i → length h ≤ i) →
  document h m = Some doc → document h' m = Some doc.
Proof.
  unfold document. intros Hev HT Hdoc.
  destruct (h !! m) as [e|] eqn:He; simplify_eq/=.
  destruct (Hev _ _ He) as (e' & -> & Hp & Hc). simpl. rewrite Hp.
  rewrite Hc; last first.
  { intros Hm. apply HT in Hm. apply lookup_lt_Some in He. lia. }
  destruct (payload e); try done.
  destruct (mapM (layer_at h) (children e)) as [ls|] eqn:Hls; simplify_eq/=.
  assert (mapM (layer_at h') (children e) = Some ls) as ->; [|done].
  revert Hls. rewrite !mapM_Some. intros Hall.
  eapply Forall2_impl; [exact Hall|].
  intros i l Hl. eapply layer_at_evolves; [done| |done].
  intros Hi. apply HT in Hi. apply layer_at_lt in Hl. lia.
Qed.

Lemma marker_at_attach_new d parent h :
  parent ≠ length h → marker_at (attach (Marker d) parent h) (length h) = Some d.
Proof. intros Hne. unfold marker_at. by rewrite attach_lookup_new. Qed.

Lemma layer_at_attach_new p parent h :
  parent ≠ length h →
  layer_at (attach p parent h) (length h) =
    match p with
    | GeoJson data name _ _ => Some (StreetLayer name data)
    | MarkerCluster name => Some (ClusterLayer name [])
    | LayerControl => Some ControlLayer
    | _ => None
    end.
Proof.
  intros Hne. unfold layer_at. rewrite attach_lookup_new by done.
  by destruct p.
Qed.

Lemma layer_at_attach_other p parent h i l :
  i ≠ parent → layer_at h i = Some l → layer_at (attach p parent h) i = Some l.
Proof.
  intros Hne. apply (layer_at_evolves (λ i, i = parent)); [|done].
  apply evolves_attach.
Qed.

(** A marker attached to a cluster is its last marker. *)
Lemma layer_at_attach_marker d parent h name ms :
  layer_at h parent = Some (ClusterLayer name ms) →
  layer_at (attach (Marker d) parent h) parent = Some (ClusterLayer name (ms ++ [d])).
Proof.
  intros Hl. pose proof (layer_at_lt _ _ _ Hl) as Hlt.
  unfold layer_at in *.
  destruct (h !! parent) as [e|] eqn:He; simplify_eq/=.
  rewrite (attach_lookup_parent _ _ _ _ He). simpl.
  destruct (payload e); simplify_eq/=.
  destruct (mapM (marker_at h) (children e)) as [ms0|] eqn:Hms; simplify_eq/=.
  assert (mapM (marker_at (attach (Marker d) parent h)) (children e ++ [length h])
          = Some (ms ++ [d])) as ->; [|done].
  apply mapM_Some. apply Forall2_app.
  - apply mapM_Some. by eapply markers_at_evolves; [apply evolves_attach|].
  - constructor; [|constructor]. apply marker_at_attach_new. lia.
Qed.

(** ** The loop over the rows *)

Section Rows.
Context `{!Unicode} {G : Type} `{!Shapely G}.
Implicit Types (row : POI G) (pois : list (POI G)).

Lemma row_is_tagged row key lit :
  row_is row key lit = bool_decide (tagged row key lit).
Proof.
  unfold row_is, row_contains, row_get.
  destruct (decide (tagged row key lit)) as [Ht|Hn].
  - rewrite (bool_decide_eq_true_2 _ Ht). unfold tagged in Ht. rewrite Ht.
    simpl. by rewrite String.eqb_refl.
  - rewrite (bool_decide_eq_false_2 _ Hn). unfold tagged in Hn.
    destruct (attrs row !! key) as [v|]; [|done].
    rewrite bool_decide_eq_true_2 by eauto. simpl.
    destruct v as [| |s]; simpl; try done.
    destruct (String.eqb_spec s lit) as [->|Hne]; done.
Qed.

(** The conditionals of the script choose what the rule table chooses. *)
Lemma poi_style_classify row a c p o :
  poi_style row a c p o =
    (icon_color (cluster_icon (classify row)),
     icon_name (cluster_icon (classify row)),
     cluster_ref a c p o (classify row)).
Proof.
  unfold poi_style, classify, rules, first_match; simpl.
  rewrite !row_is_tagged.
  repeat case_bool_decide; reflexivity.
Qed.

Lemma marker_of_icon g row d :
  marker_of g row = Returned d → marker_icon d = cluster_icon (classify row).
Proof.
  unfold marker_of. destruct (lon_lat g); simpl; [|done].
  destruct (popup_text_of row); simpl; [|done].
  intros [= <-]. simpl. rewrite poi_style_classify. simpl.
  by destruct (classify row).
Qed.

Lemma add_poi_marker_run a c p o row w :
  add_poi_marker a c p o row w =
    ({| stdout := stdout w ++ option_list (skip_line row);
        heap := match placed row with
                | Some d => attach (Marker d) (cluster_ref a c p o (classify row)) (heap w)
                | None => heap w
                end |},
     Returned tt).
Proof.
  unfold add_poi_marker, skip_line, placed, row_outcome.
  destruct w as [out h]. simpl.
  destruct (geometry row) as [g|]; simpl; [|by rewrite app_nil_r].
  destruct (geom_bool g && bool_decide (geom_type g ∈ marker_geom_types));
    simpl; [|by rewrite app_nil_r].
  unfold marker_of, try_except, bind, lift. simpl.
  destruct (lon_lat g) as [[lon lat]|e]; simpl; [|done].
  destruct (popup_text_of row) as [text|e]; simpl; [|done].
  rewrite !poi_style_classify. simpl. by rewrite app_nil_r.
Qed.

Lemma for_each_add_poi_marker_run a c p o pois w :
  for_each pois (add_poi_marker a c p o) w =
    ({| stdout := stdout w ++ omap skip_line pois;
        heap := place_all (cluster_ref a c p o) pois (heap w) |},
     Returned tt).
Proof.
  revert w. induction pois as [|row pois IH]; intros w.
  - destruct w. simpl. unfold ret. by rewrite app_nil_r.
  - simpl. unfold bind. rewrite add_poi_marker_run, IH. simpl.
    rewrite <- app_assoc. by destruct (skip_line row).
Qed.

End Rows.

(** ** Running the map builder *)

Lemma print_run {A} line (k : unit → M A) w :
  bind (print line) k w = k tt {| stdout := stdout w ++ [line]; heap := heap w |}.
Proof. reflexivity. Qed.

Lemma new_add_to_run {A} p parent (k : nat → M A) w :
  bind (new p) (λ child, bind (add_to child parent) k) w =
    k (length (heap w)) {| stdout := stdout w; heap := attach p parent (heap w) |}.
Proof. reflexivity. Qed.

Lemma attach_root p h e rest :
  attach p (length h) (h ++ e :: rest) =
    h ++ {| payload := payload e;
            children := children e ++ [length h + S (length rest)] |}
      :: rest ++ [{| payload := p; children := [] |}].
Proof.
  unfold attach. rewrite length_app. simpl.
  rewrite <- (app_assoc h). simpl.
  replace (length h) with (length h + 0) at 1 by lia.
  by rewrite alter_app_r.
Qed.

Lemma before_loop_shape center zoom street_edges h :
  before_loop center zoom street_edges h =
    h ++ [ {| payload := FoliumMap center zoom "OpenStreetMap";
              children := [length h + 1; length h + 2; length h + 3;
                           length h + 4; length h + 5] |};
           {| payload := GeoJson street_edges "Street Network" street_style street_tooltip;
              children := [] |};
           {| payload := MarkerCluster "Attractions"; children := [] |};
           {| payload := MarkerCluster "Cafes"; children := [] |};
           {| payload := MarkerCluster "Parks"; children := [] |};
           {| payload := MarkerCluster "Other POIs"; children := [] |} ].
Proof. unfold before_loop. by rewrite !attach_root. Qed.

Section Builder.
Context `{!Unicode} {G : Type} `{!Shapely G}.
Implicit Types (row : POI G) (pois : list (POI G)).

Lemma markers_for_cons c row pois :
  markers_for c (row :: pois) =
    match placed row with
    | Some d => if decide (classify row = c) then d :: markers_for c pois
                else markers_for c pois
    | None => markers_for c pois
    end.
Proof.
  unfold markers_for. simpl.
  destruct (decide (classify row = c)), (placed row); done.
Qed.

Lemma markers_for_app c pois1 pois2 :
  markers_for c (pois1 ++ pois2) = markers_for c pois1 ++ markers_for c pois2.
Proof. unfold markers_for. apply omap_app. Qed.

(** The loop adds to every cluster the markers of the rows classified to
    it, in row order, and leaves every other element alone. *)
Lemma place_all_spec (ref : Cluster → nat) pois :
  (∀ c1 c2, ref c1 = ref c2 → c1 = c2) →
  ∀ h (names : Cluster → string) (ms : Cluster → list MarkerData),
    (∀ c, layer_at h (ref c) = Some (ClusterLayer (names c) (ms c))) →
    evolves (λ i, ∃ c, i = ref c) h (place_all ref pois h) ∧
    ∀ c, layer_at (place_all ref pois h) (ref c) =
           Some (ClusterLayer (names c) (ms c ++ markers_for c pois)).
Proof.
  intros Hinj. induction pois as [|row pois IH]; intros h names ms Hms.
  - simpl. split; [apply evolves_refl|].
    intros c. unfold markers_for. simpl. by rewrite app_nil_r.
  - cbn [place_all]. destruct (placed row) as [d|] eqn:Hplaced.
    + destruct (IH (attach (Marker d) (ref (classify row)) h) names
                  (λ c, ms c ++ if decide (classify row = c) then [d] else []))
        as [Hev Hlayers].
      { intros c. destruct (decide (classify row = c)) as [<-|Hne].
        - by apply layer_at_attach_marker.
        - rewrite app_nil_r. apply layer_at_attach_other; [|done].
          intros Heq. apply Hne. by apply Hinj. }
      split.
      * eapply evolves_trans; [|exact Hev].
        eapply evolves_weaken; [|apply evolves_attach].
        intros i ->. eauto.
      * intros c. rewrite Hlayers, markers_for_cons, Hplaced, <- app_assoc.
        by destruct (decide (classify row = c)).
    + destruct (IH h names ms Hms) as [Hev Hlayers].
      split; [done|]. intros c. by rewrite Hlayers, markers_for_cons, Hplaced.
Qed.

Lemma refs_from_inj m c1 c2 : refs_from m c1 = refs_from m c2 → c1 = c2.
Proof. destruct c1, c2; unfold refs_from; simpl; intros; done || lia. Qed.

Lemma lookup_evolves (T : nat → Prop) h h' i e :
  evolves T h h' → ¬ T i → h !! i = Some e → h' !! i = Some e.
Proof.
  intros Hev Hi He. destruct (Hev _ _ He) as (e' & He' & Hp & Hc).
  rewrite He'. f_equal. destruct e, e'; simpl in *. by rewrite Hp, (Hc Hi).
Qed.

(** The document that [built] holds at the map object. *)
Lemma built_document center zoom street_edges pois h :
  document (built center zoom street_edges pois h) (length h) =
    Some (expected_document center zoom street_edges pois).
Proof.
  set (m := length h).
  set (h0 := before_loop center zoom street_edges h).
  assert (Hroot : h0 !! m =
            Some {| payload := FoliumMap center zoom "OpenStreetMap";
                    children := [m + 1; m + 2; m + 3; m + 4; m + 5] |}).
  { unfold h0. rewrite before_loop_shape. by rewrite list_lookup_middle. }
  assert (Hlen : length h0 = m + 6).
  { unfold h0. rewrite before_loop_shape, length_app. done. }
  assert (Hat : ∀ j, h0 !! (m + S j) =
                 [ {| payload := GeoJson street_edges "Street Network"
                                         street_style street_tooltip;
                      children := [] |};
                   {| payload := MarkerCluster "Attractions"; children := [] |};
                   {| payload := MarkerCluster "Cafes"; children := [] |};
                   {| payload := MarkerCluster "Parks"; children := [] |};
                   {| payload := MarkerCluster "Other POIs"; children := [] |} ] !! j).
  { intros j. unfold h0. rewrite before_loop_shape.
    rewrite lookup_app_r by (unfold m; lia).
    replace (m + S j - length h) with (S j) by (unfold m; lia). done. }
  assert (Hstreet : layer_at h0 (m + 1) =
                      Some (StreetLayer "Street Network" street_edges)).
  { unfold layer_at. by rewrite (Hat 0). }
  assert (Hclusters : ∀ c, layer_at h0 (refs_from m c) =
                             Some (ClusterLayer (cluster_name c) ([] ++ []))).
  { intros c. unfold layer_at.
    destruct c; unfold refs_from; simpl.
    - by rewrite (Hat 1).
    - by rewrite (Hat 2).
    - by rewrite (Hat 3).
    - by rewrite (Hat 4). }
  destruct (place_all_spec (refs_from m) pois (refs_from_inj m) h0
              cluster_name (λ _, []) Hclusters) as [Hev Hlayers].
  set (h1 := place_all (refs_from m) pois h0) in *.
  assert (Hfresh : ∀ i, (∃ c, i = refs_from m c) → m + 2 ≤ i).
  { intros i [c ->]. destruct c; unfold refs_from; simpl; lia. }
  pose proof (evolves_length _ _ _ Hev) as Hlen1.
  assert (Hroot1 : h1 !! m = Some {| payload := FoliumMap center zoom "OpenStreetMap";
                                     children := [m + 1; m + 2; m + 3; m + 4; m + 5] |}).
  { eapply lookup_evolves; [exact Hev| |exact Hroot].
    intros Hm. apply Hfresh in Hm. lia. }
  assert (Hstreet1 : layer_at h1 (m + 1) =
                       Some (StreetLayer "Street Network" street_edges)).
  { eapply layer_at_evolves; [exact Hev| |exact Hstreet].
    intros Hm. apply Hfresh in Hm. lia. }
  unfold built. fold m. fold h0. fold h1.
  unfold document. rewrite (attach_lookup_parent _ _ _ _ Hroot1). simpl.
  rewrite (layer_at_attach_other LayerControl m h1 (m + 1) _ ltac:(lia) Hstreet1).
  simpl.
  rewrite (layer_at_attach_other LayerControl m h1 (m + 2) _ ltac:(lia)
             (Hlayers Attractions)).
  rewrite (layer_at_attach_other LayerControl m h1 (m + 3) _ ltac:(lia)
             (Hlayers Cafes)).
  rewrite (layer_at_attach_other LayerControl m h1 (m + 4) _ ltac:(lia)
             (Hlayers Parks)).
  rewrite (layer_at_attach_other LayerControl m h1 (m + 5) _ ltac:(lia)
             (Hlayers OtherPOIs)).
  rewrite layer_at_attach_new by lia. simpl. done.
Qed.

(** Building a map touches no element that was there before the call. *)
Lemma built_evolves center zoom street_edges pois h :
  evolves (λ i, length h ≤ i) h (built center zoom street_edges pois h).
Proof.
  unfold built, before_loop.
  set (m := length h).
  set (h0 := h ++ [_]).
  assert (Hstep : ∀ p h1, evolves (λ i, m ≤ i) h h1 →
                          evolves (λ i, m ≤ i) h (attach p m h1)).
  { intros p h1 Hh1. eapply evolves_trans; [exact Hh1|].
    eapply evolves_weaken; [|apply evolves_attach]. intros i ->. done. }
  apply Hstep.
  match goal with |- evolves _ _ (place_all _ _ ?hb) => set (h5 := hb) end.
  assert (Hh5 : evolves (λ i, m ≤ i) h h5).
  { unfold h5. do 5 apply Hstep. apply evolves_push. }
  assert (Hshape : h5 = before_loop center zoom street_edges h) by done.
  eapply evolves_trans; [exact Hh5|].
  assert (Hclusters : ∀ c, layer_at h5 (refs_from m c) =
                             Some (ClusterLayer (cluster_name c) ([] ++ []))).
  { intros c. rewrite Hshape, before_loop_shape. unfold layer_at. fold m.
    rewrite lookup_app_r by (destruct c; unfold refs_from, m; simpl; lia).
    destruct c; unfold refs_from; simpl.
    - by replace (m + 2 - length h) with 2 by (unfold m; lia).
    - by replace (m + 3 - length h) with 3 by (unfold m; lia).
    - by replace (m + 4 - length h) with 4 by (unfold m; lia).
    - by replace (m + 5 - length h) with 5 by (unfold m; lia). }
  destruct (place_all_spec (refs_from m) pois (refs_from_inj m) h5
              cluster_name (λ _, []) Hclusters) as [Hev _].
  eapply evolves_weaken; [|exact Hev].
  intros i [c ->]. destruct c; unfold refs_from; simpl; lia.
Qed.

End Builder.

Section Runs.
Context `{!Unicode} {G : Type} `{!Shapely G} `{!Services G}.
Implicit Types (row : POI G) (pois : list (POI G)).

Lemma lift_run {A B} (a : A) (k : A → M B) w : bind (lift (Returned a)) k w = k a w.
Proof. reflexivity. Qed.

Lemma new_run {A} p (k : nat → M A) w :
  bind (new p) k w =
    k (length (heap w))
      {| stdout := stdout w;
         heap := heap w ++ [{| payload := p; children := [] |}] |}.
Proof. reflexivity. Qed.

Lemma for_each_run {A} a c p o pois (k : unit → M A) w :
  bind (for_each pois (add_poi_marker a c p o)) k w =
    k tt {| stdout := stdout w ++ omap skip_line pois;
            heap := place_all (cluster_ref a c p o) pois (heap w) |}.
Proof. unfold bind. by rewrite for_each_add_poi_marker_run. Qed.

(** The run of the map builder on a graph that has nodes and whose edges
    convert: the lines it prints, the elements it leaves, the reference of
    the map it returns. *)
Lemma create_interactive_map_returns graph pois location_name zoom center street_edges w :
  calculate_graph_centroid graph = Returned center →
  graph_to_gdfs_edges graph = Returned street_edges →
  create_interactive_map graph pois location_name zoom w =
    ({| stdout := stdout w ++ expected_log center location_name pois;
        heap := built center zoom street_edges pois (heap w) |},
     Returned (length (heap w))).
Proof.
  intros Hcenter Hedges. unfold create_interactive_map.
  rewrite print_run, Hcenter, lift_run. destruct center as [lat lon].
  rewrite print_run, new_run, print_run, Hedges, lift_run.
  rewrite !new_add_to_run, print_run. cbn [heap stdout].
  rewrite !new_add_to_run, for_each_run. cbn [heap stdout].
  rewrite new_add_to_run, print_run. cbn [heap stdout]. unfold ret.
  rewrite !length_attach, length_app. cbn [length].
  unfold built, before_loop, refs_from, expected_log.
  replace (length (heap w) + 1) with (S (length (heap w))) by lia.
  replace (length (heap w) + 2) with (S (S (length (heap w)))) by lia.
  replace (length (heap w) + 3) with (S (S (S (length (heap w))))) by lia.
  replace (length (heap w) + 4) with (S (S (S (S (length (heap w)))))) by lia.
  replace (length (heap w) + 5) with (S (S (S (S (S (length (heap w))))))) by lia.
  cbn [fst snd]. repeat rewrite <- app_assoc. reflexivity.
Qed.

Lemma create_interactive_map_without_nodes graph pois location_name zoom e w :
  calculate_graph_centroid graph = Raised e →
  create_interactive_map graph pois location_name zoom w =
    ({| stdout := stdout w ++
                  ["--- Creating interactive map for " +:+ location_name +:+ " ---"];
        heap := heap w |},
     Raised e).
Proof.
  intros Hcenter. unfold create_interactive_map.
  rewrite print_run, Hcenter. reflexivity.
Qed.

Lemma create_interactive_map_without_edges graph pois location_name zoom center e w :
  calculate_graph_centroid graph = Returned center →
  graph_to_gdfs_edges graph = Raised e →
  (create_interactive_map graph pois location_name zoom w).2 = Raised e.
Proof.
  intros Hcenter Hedges. unfold create_interactive_map.
  rewrite print_run, Hcenter, lift_run. destruct center as [lat lon].
  rewrite print_run, new_run, print_run, Hedges. reflexivity.
Qed.

End Runs.

Section Specification.
Context `{!Unicode} {G : Type} `{!Shapely G} `{!Services G}.
Implicit Types (row : POI G) (pois : list (POI G)).

(** Whenever the map builder returns, it returns the reference of a new map
    object whose document is the expected one. *)
Lemma create_interactive_map_inv graph pois location_name zoom w w' m :
  create_interactive_map graph pois location_name zoom w = (w', Returned m) →
  ∃ center street_edges,
    calculate_graph_centroid graph = Returned center ∧
    graph_to_gdfs_edges graph = Returned street_edges ∧
    m = length (heap w) ∧
    stdout w' = stdout w ++ expected_log center location_name pois ∧
    heap w' = built center zoom street_edges pois (heap w) ∧
    document (heap w') m = Some (expected_document center zoom street_edges pois).
Proof.
  intros Hrun.
  destruct (calculate_graph_centroid graph) as [center|e] eqn:Hcenter; last first.
  { by rewrite (create_interactive_map_without_nodes _ _ _ _ _ _ Hcenter) in Hrun. }
  destruct (graph_to_gdfs_edges graph) as [street_edges|e] eqn:Hedges; last first.
  { pose proof (create_interactive_map_without_edges
                  _ pois location_name zoom _ _ w Hcenter Hedges) as Hfail.
    rewrite Hrun in Hfail. done. }
  rewrite (create_interactive_map_returns _ _ _ _ _ _ _ Hcenter Hedges) in Hrun.
  injection Hrun as <- <-. exists center, street_edges. simpl.
  repeat split; try done. apply built_document.
Qed.

Lemma cluster_markers_expected center zoom street_edges pois c :
  cluster_markers (expected_document center zoom street_edges pois) (cluster_name c)
  = Some (markers_for c pois).
Proof. by destruct c. Qed.

Lemma cluster_counts_expected center zoom street_edges pois :
  cluster_counts (expected_document center zoom street_edges pois) =
    [ ("Attractions", length (markers_for Attractions pois));
      ("Cafes", length (markers_for Cafes pois));
      ("Parks", length (markers_for Parks pois));
      ("Other POIs", length (markers_for OtherPOIs pois)) ].
Proof. reflexivity. Qed.

Lemma markers_for_none c pois :
  Forall (λ row, placed row = None) pois → markers_for c pois = [].
Proof.
  induction 1 as [|row pois Hrow _ IH]; [done|].
  by rewrite markers_for_cons, Hrow.
Qed.

(** C10.  Whenever [create_interactive_map] returns, the document of the
    map it returns has exactly four cluster layers, called "Attractions",
    "Cafes", "Parks" and "Other POIs", and exactly one layer control; when no
    row contributes a marker the four clusters are there all the same, each
    with no marker. *)
Theorem four_clusters_and_one_layer_control
    graph pois location_name zoom w w' m :
  create_interactive_map graph pois location_name zoom w = (w', Returned m) →
  ∃ doc,
    document (heap w') m = Some doc ∧
    (cluster_counts doc).*1 = ["Attractions"; "Cafes"; "Parks"; "Other POIs"] ∧
    layer_controls doc = 1 ∧
    (Forall (λ row, placed row = None) pois →
     cluster_counts doc =
       [("Attractions", 0); ("Cafes", 0); ("Parks", 0); ("Other POIs", 0)]).
Proof.
  intros Hrun.
  destruct (create_interactive_map_inv _ _ _ _ _ _ _ Hrun)
    as (center & street_edges & _ & _ & _ & _ & _ & Hdoc).
  eexists. split; [exact Hdoc|]. rewrite cluster_counts_expected.
  split; [done|]. split; [done|].
  intros Hnone. by rewrite !markers_for_none.
Qed.

Lemma length_place_all (ref : Cluster → nat) pois h :
  length h ≤ length (place_all ref pois h).
Proof.
  revert h. induction pois as [|row pois IH]; intros h; simpl; [done|].
  destruct (placed row); [|done].
  etrans; [|apply IH]. rewrite length_attach. lia.
Qed.

Lemma length_built center zoom street_edges pois h :
  length h < length (built center zoom street_edges pois h).
Proof.
  unfold built. rewrite length_attach.
  pose proof (length_place_all (refs_from (length h)) pois
                (before_loop center zoom street_edges h)) as Hle.
  assert (length (before_loop center zoom street_edges h) = length h + 6) as Hlen.
  { by rewrite before_loop_shape, length_app. }
  lia.
Qed.

(** C9.  Two calls of [create_interactive_map] in a row with the same
    arguments either both raise the same exception or return two distinct
    map objects whose documents, read after the second call, have the same
    centre and the same number of markers in every cluster. *)
Theorem create_interactive_map_twice graph pois location_name zoom w :
  let first := create_interactive_map graph pois location_name zoom w in
  let second := create_interactive_map graph pois location_name zoom first.1 in
  match first.2, second.2 with
  | Returned m1, Returned m2 =>
      m1 ≠ m2 ∧
      ∃ doc1 doc2,
        document (heap second.1) m1 = Some doc1 ∧
        document (heap second.1) m2 = Some doc2 ∧
        doc_center doc1 = doc_center doc2 ∧
        cluster_counts doc1 = cluster_counts doc2
  | Raised e1, Raised e2 => e1 = e2
  | _, _ => False
  end.
Proof.
  intros first second. subst first second.
  destruct (calculate_graph_centroid graph) as [center|e] eqn:Hcenter; last first.
  { by rewrite !(create_interactive_map_without_nodes _ _ _ _ _ _ Hcenter). }
  destruct (graph_to_gdfs_edges graph) as [street_edges|e] eqn:Hedges; last first.
  { by rewrite !(create_interactive_map_without_edges _ _ _ _ _ _ _ Hcenter Hedges). }
  rewrite !(create_interactive_map_returns _ _ _ _ _ _ _ Hcenter Hedges).
  cbn [fst snd heap].
  set (h1 := built center zoom street_edges pois (heap w)).
  split.
  { pose proof (length_built center zoom street_edges pois (heap w)) as Hlt.
    fold h1 in Hlt. lia. }
  exists (expected_document center zoom street_edges pois),
         (expected_document center zoom street_edges pois).
  split; [|split; [apply built_document | done]].
  eapply document_evolves; [apply built_evolves | | apply built_document].
  intros i Hi. exact Hi.
Qed.

Lemma create_interactive_map_stops_at_edges graph pois location_name zoom center e w :
  calculate_graph_centroid graph = Returned center →
  graph_to_gdfs_edges graph = Raised e →
  create_interactive_map graph pois location_name zoom w =
    create_interactive_map graph [] location_name zoom w.
Proof.
  intros Hcenter Hedges. unfold create_interactive_map.
  rewrite !print_run, Hcenter, !lift_run. destruct center as [lat lon].
  rewrite !print_run, !new_run, !print_run, Hedges. reflexivity.
Qed.

Lemma place_all_app (ref : Cluster → nat) pois1 pois2 h :
  place_all ref (pois1 ++ pois2) h = place_all ref pois2 (place_all ref pois1 h).
Proof. revert h. induction pois1 as [|row pois1 IH]; intros h; simpl; [done|]. apply IH. Qed.

(** The run of the map builder depends on the rows only through the lines
    they make it print and the markers they make it attach. *)
Lemma create_interactive_map_rows graph pois pois' location_name zoom w :
  omap skip_line pois = omap skip_line pois' →
  (∀ ref h, place_all ref pois h = place_all ref pois' h) →
  create_interactive_map graph pois location_name zoom w =
    create_interactive_map graph pois' location_name zoom w.
Proof.
  intros Hlines Hplace.
  destruct (calculate_graph_centroid graph) as [center|e] eqn:Hcenter; last first.
  { by rewrite !(create_interactive_map_without_nodes _ _ _ _ _ _ Hcenter). }
  destruct (graph_to_gdfs_edges graph) as [street_edges|e] eqn:Hedges; last first.
  { rewrite (create_interactive_map_stops_at_edges _ pois _ _ _ _ _ Hcenter Hedges).
    by rewrite (create_interactive_map_stops_at_edges _ pois' _ _ _ _ _ Hcenter Hedges). }
  rewrite !(create_interactive_map_returns _ _ _ _ _ _ _ Hcenter Hedges).
  unfold expected_log, built. by rewrite Hlines, Hplace.
Qed.

Lemma row_outcome_without_marker_geometry row :
  geometry row = None ∨
  (∃ g, geometry row = Some g ∧ geom_type g ∉ marker_geom_types) →
  row_outcome row = None.
Proof.
  unfold row_outcome. intros [-> | (g & -> & Htype)]; [done|].
  rewrite bool_decide_eq_false_2 by done. by rewrite andb_false_r.
Qed.

(** C5.  A row whose geometry is [None], or whose geometry type is not
    Point, Polygon or MultiPolygon, goes through the loop body without an
    exception and without any effect; with or without it in the collection,
    [create_interactive_map] does the same: same lines, same elements, same
    result. *)
Theorem rows_without_marker_geometry_are_left_out
    graph pois1 row pois2 location_name zoom a c p o w :
  geometry row = None ∨
  (∃ g, geometry row = Some g ∧ geom_type g ∉ marker_geom_types) →
  add_poi_marker a c p o row w = (w, Returned tt) ∧
  create_interactive_map graph (pois1 ++ row :: pois2) location_name zoom w =
    create_interactive_map graph (pois1 ++ pois2) location_name zoom w.
Proof.
  intros Hgeom. apply row_outcome_without_marker_geometry in Hgeom.
  split.
  - rewrite add_poi_marker_run. unfold skip_line, placed. rewrite Hgeom.
    destruct w. simpl. by rewrite app_nil_r.
  - apply create_interactive_map_rows.
    + rewrite !omap_app. simpl. unfold skip_line at 2. by rewrite Hgeom.
    + intros ref h. rewrite !place_all_app. simpl. unfold placed at 1.
      by rewrite Hgeom.
Qed.

Lemma placed_castle g lon lat :
  geom_bool g = true → geom_type g ∈ marker_geom_types →
  lon_lat g = Returned (lon, lat) →
  let castle := {| geometry := Some g;
                   attrs := {[ "tourism" := PyStr "attraction";
                               "name" := PyStr "Castle" ]} |} in
  classify castle = Attractions ∧
  skip_line castle = None ∧
  placed castle =
    Some {| marker_location := (lat, lon);
            marker_popup := {| popup_html := "CastleType: Attraction";
                               popup_max_width := 300 |};
            marker_icon := {| icon_color := "red"; icon_name := "star";
                              icon_prefix := "fa" |} |}.
Proof.
  intros Hbool Htype Hll castle. split; [by vm_compute|].
  unfold skip_line, placed, row_outcome. simpl.
  rewrite Hbool, bool_decide_eq_true_2 by done. simpl.
  unfold marker_of. rewrite Hll. simpl.
  replace (popup_text_of castle) with (Returned (A:=string) "CastleType: Attraction")
    by (by vm_compute).
  simpl. split; [done|]. do 2 f_equal.
Qed.

(** C6.  No row aborts the build: on a graph that has nodes and whose edges
    convert, [create_interactive_map] returns whatever the rows are.  A row
    on which the [try] block raises [e] leaves the loop body with the line
    "Skipping POI '<name>' due to geometry error: <e>" printed and nothing
    else done; with or without it in the collection the elements and the
    result of [create_interactive_map] are the same, and the line is in the
    output when the builder returns.  A collection of the record
    [{tourism: "attraction", name: "Castle"}] (with a geometry that gives
    coordinates) and a record with [None] for geometry, in either order,
    gives a map with one marker, in the cluster "Attractions". *)
Theorem one_bad_row_never_aborts_the_build :
  (∀ graph pois location_name zoom center street_edges w,
     calculate_graph_centroid graph = Returned center →
     graph_to_gdfs_edges graph = Returned street_edges →
     ∃ w', create_interactive_map graph pois location_name zoom w
           = (w', Returned (length (heap w)))) ∧
  (∀ graph pois1 row pois2 location_name zoom e a c p o w,
     row_outcome row = Some (Raised e) →
     let with_row :=
       create_interactive_map graph (pois1 ++ row :: pois2) location_name zoom w in
     let without_row :=
       create_interactive_map graph (pois1 ++ pois2) location_name zoom w in
     add_poi_marker a c p o row w =
       ({| stdout := stdout w ++ [skipping row e]; heap := heap w |}, Returned tt) ∧
     with_row.2 = without_row.2 ∧
     heap with_row.1 = heap without_row.1 ∧
     (∀ m, with_row.2 = Returned m → skipping row e ∈ stdout with_row.1)) ∧
  (∀ graph g lon lat (other : POI G) pois location_name zoom center street_edges w,
     calculate_graph_centroid graph = Returned center →
     graph_to_gdfs_edges graph = Returned street_edges →
     geom_bool g = true → geom_type g ∈ marker_geom_types →
     lon_lat g = Returned (lon, lat) →
     geometry other = None →
     let castle := {| geometry := Some g;
                      attrs := {[ "tourism" := PyStr "attraction";
                                  "name" := PyStr "Castle" ]} |} in
     pois = [castle; other] ∨ pois = [other; castle] →
     ∃ w' m doc,
       create_interactive_map graph pois location_name zoom w = (w', Returned m) ∧
       document (heap w') m = Some doc ∧
       cluster_markers doc "Attractions" =
         Some [ {| marker_location := (lat, lon);
                   marker_popup := {| popup_html := "CastleType: Attraction";
                                      popup_max_width := 300 |};
                   marker_icon := {| icon_color := "red"; icon_name := "star";
                                     icon_prefix := "fa" |} |} ] ∧
       cluster_counts doc =
         [("Attractions", 1); ("Cafes", 0); ("Parks", 0); ("Other POIs", 0)]).
Proof.
  split; [|split].
  - intros * Hcenter Hedges. eexists.
    by rewrite (create_interactive_map_returns _ _ _ _ _ _ _ Hcenter Hedges).
  - intros * Hraised with_row without_row. subst with_row without_row.
    assert (Hline : skip_line row = Some (skipping row e)).
    { unfold skip_line. by rewrite Hraised. }
    assert (Hplaced : placed row = None).
    { unfold placed. by rewrite Hraised. }
    split.
    { rewrite add_poi_marker_run, Hline, Hplaced. done. }
    destruct (calculate_graph_centroid graph) as [center|e0] eqn:Hcenter; last first.
    { by rewrite !(create_interactive_map_without_nodes _ _ _ _ _ _ Hcenter). }
    destruct (graph_to_gdfs_edges graph) as [street_edges|e0] eqn:Hedges; last first.
    { rewrite (create_interactive_map_stops_at_edges
                 _ (pois1 ++ row :: pois2) _ _ _ _ _ Hcenter Hedges).
      rewrite (create_interactive_map_stops_at_edges
                 _ (pois1 ++ pois2) _ _ _ _ _ Hcenter Hedges).
      split; [done|]. split; [done|]. intros m Hm.
      by rewrite (create_interactive_map_without_edges
                    _ _ _ _ _ _ _ Hcenter Hedges) in Hm. }
    rewrite !(create_interactive_map_returns _ _ _ _ _ _ _ Hcenter Hedges).
    cbn [fst snd heap stdout]. split; [done|]. split.
    + unfold built. rewrite !place_all_app. simpl. by rewrite Hplaced.
    + intros _ _. unfold expected_log. rewrite omap_app. simpl. rewrite Hline.
      set_solver.
  - intros * Hcenter Hedges Hbool Htype Hll Hother castle Hpois.
    destruct (placed_castle g lon lat Hbool Htype Hll) as (Hclass & _ & Hplaced).
    fold castle in Hclass, Hplaced.
    assert (Hnone : placed other = None).
    { unfold placed, row_outcome. by rewrite Hother. }
    eexists _, _, _.
    split; [by apply (create_interactive_map_returns _ _ _ _ _ _ _ Hcenter Hedges)|].
    cbn [heap]. split; [apply built_document|].
    rewrite (cluster_markers_expected _ _ _ _ Attractions), cluster_counts_expected.
    destruct Hpois as [-> | ->];
      rewrite !markers_for_cons, Hplaced, Hnone, Hclass; done.
Qed.

(** ** Markers: cluster, icon, place and pop-up *)

Lemma elem_of_markers_for c pois d :
  d ∈ markers_for c pois ↔ ∃ row, row ∈ pois ∧ classify row = c ∧ placed row = Some d.
Proof.
  unfold markers_for. rewrite list_elem_of_omap. split.
  - intros (row & Hin & Hrow). exists row.
    destruct (decide (classify row = c)); [done|discriminate].
  - intros (row & Hin & Hc & Hd). exists row. split; [done|].
    by rewrite decide_True.
Qed.

Lemma placed_inv row d :
  placed row = Some d →
  ∃ g, geometry row = Some g ∧ geom_bool g = true ∧
       geom_type g ∈ marker_geom_types ∧ marker_of g row = Returned d.
Proof.
  unfold placed, row_outcome. destruct (geometry row) as [g|]; [|done].
  destruct (geom_bool g) eqn:Hbool; [|done]. simpl.
  case_bool_decide as Htype; [|done].
  destruct (marker_of g row) eqn:Hmarker; [|done].
  intros [= ->]. by exists g.
Qed.

Lemma classify_priority row :
  classify row =
    if decide (tagged row "tourism" "attraction") then Attractions
    else if decide (tagged row "amenity" "cafe") then Cafes
    else if decide (tagged row "leisure" "park") then Parks
    else OtherPOIs.
Proof.
  unfold classify, rules, first_match. simpl.
  repeat case_bool_decide; repeat case_decide; done.
Qed.

(** In the map [create_interactive_map] returns, the markers of each
    cluster are those of the rows that got one and that the first matching
    rule of the table sends there, in row order, each with the icon of the
    cluster. *)
Lemma clusters_hold_the_placed_rows graph pois location_name zoom w w' m :
  create_interactive_map graph pois location_name zoom w = (w', Returned m) →
  ∃ doc,
    document (heap w') m = Some doc ∧
    (∀ c, cluster_markers doc (cluster_name c) = Some (markers_for c pois) ∧
          Forall (λ d, marker_icon d = cluster_icon c) (markers_for c pois)).
Proof.
  intros Hrun.
  destruct (create_interactive_map_inv _ _ _ _ _ _ _ Hrun)
    as (center & street_edges & _ & _ & _ & _ & _ & Hdoc).
  eexists. split; [exact Hdoc|].
  intros c. split; [apply cluster_markers_expected|].
  apply Forall_forall. intros d Hd.
  apply elem_of_markers_for in Hd as (row & _ & <- & Hplaced).
  apply placed_inv in Hplaced as (g & _ & _ & _ & Hmarker).
  by eapply marker_of_icon.
Qed.

(** A [nan] in the [tourism] cell is true, and has no [replace]. *)
Lemma popup_text_of_nan_tourism row :
  attrs row !! "tourism" = Some PyNaN →
  popup_text_of row = Raised float_has_no_replace.
Proof.
  intros Hnan. unfold popup_text_of, row_get, row_item. by rewrite Hnan.
Qed.

Lemma row_outcome_nan_tourism row g ll :
  geometry row = Some g → geom_bool g = true → geom_type g ∈ marker_geom_types →
  lon_lat g = Returned ll →
  attrs row !! "tourism" = Some PyNaN →
  row_outcome row = Some (Raised float_has_no_replace).
Proof.
  intros Hgeom Hbool Htype Hll Hnan. unfold row_outcome.
  rewrite Hgeom, Hbool, bool_decide_eq_true_2 by done. simpl.
  unfold marker_of. by rewrite Hll, (popup_text_of_nan_tourism _ Hnan).
Qed.

(** C4.  The rule table sends a row tagged amenity = cafe to "Cafes" (green,
    coffee) and a row tagged leisure = park to "Parks" (lightgreen, tree),
    but the row never gets there when the frame has a [tourism] column in
    which the row has no value: the cell is [nan], [nan] is true, and the
    pop-up text, built before the table is consulted, calls [replace] on it.
    The row is reported as "Skipping POI '<name>' due to geometry error:
    'float' object has no attribute 'replace'" and no marker is made for it:
    a frame of this one row gives a map whose four clusters are empty, and
    in any frame the map is the one the builder makes without the row. *)
Theorem cafe_or_park_with_nan_tourism_gets_no_marker
    graph row g ll location_name zoom center street_edges :
  geometry row = Some g → geom_bool g = true → geom_type g ∈ marker_geom_types →
  lon_lat g = Returned ll →
  attrs row !! "tourism" = Some PyNaN →
  tagged row "amenity" "cafe" ∨ tagged row "leisure" "park" →
  calculate_graph_centroid graph = Returned center →
  graph_to_gdfs_edges graph = Returned street_edges →
  (∀ a c p o,
     poi_style row a c p o =
       if decide (tagged row "amenity" "cafe") then ("green", "coffee", c)
       else ("lightgreen", "tree", p)) ∧
  (∀ a c p o w,
     add_poi_marker a c p o row w =
       ({| stdout := stdout w ++ [skipping row float_has_no_replace];
           heap := heap w |}, Returned tt)) ∧
  (∀ w, ∃ w' doc,
     create_interactive_map graph [row] location_name zoom w
     = (w', Returned (length (heap w))) ∧
     document (heap w') (length (heap w)) = Some doc ∧
     cluster_counts doc =
       [("Attractions", 0); ("Cafes", 0); ("Parks", 0); ("Other POIs", 0)] ∧
     skipping row float_has_no_replace ∈ stdout w') ∧
  (∀ pois1 pois2 w,
     let with_row :=
       create_interactive_map graph (pois1 ++ row :: pois2) location_name zoom w in
     let without_row :=
       create_interactive_map graph (pois1 ++ pois2) location_name zoom w in
     with_row.2 = without_row.2 ∧ heap with_row.1 = heap without_row.1).
Proof.
  intros Hgeom Hbool Htype Hll Hnan Htag Hcenter Hedges.
  pose proof (row_outcome_nan_tourism _ _ _ Hgeom Hbool Htype Hll Hnan) as Houtcome.
  assert (Hline : skip_line row = Some (skipping row float_has_no_replace)).
  { unfold skip_line. by rewrite Houtcome. }
  assert (Hplaced : placed row = None).
  { unfold placed. by rewrite Houtcome. }
  split; [|split; [|split]].
  - intros a c p o. rewrite poi_style_classify, classify_priority.
    assert (Hno : ¬ tagged row "tourism" "attraction").
    { unfold tagged. by rewrite Hnan. }
    rewrite (decide_False (P := tagged row "tourism" "attraction")) by done.
    destruct (decide (tagged row "amenity" "cafe")); [done|].
    destruct Htag as [|Hpark]; [done|].
    by rewrite (decide_True (P := tagged row "leisure" "park")).
  - intros a c p o w. by rewrite add_poi_marker_run, Hline, Hplaced.
  - intros w. eexists _, _.
    split; [by apply (create_interactive_map_returns _ _ _ _ _ _ _ Hcenter Hedges)|].
    cbn [heap stdout]. split; [apply built_document|].
    rewrite cluster_counts_expected, !markers_for_cons, Hplaced. split; [done|].
    unfold expected_log.
    change (omap skip_line [row]) with (option_list (skip_line row)).
    rewrite Hline. simpl.
    rewrite !elem_of_app, !elem_of_cons. tauto.
  - intros pois1 pois2 w with_row without_row. subst with_row without_row.
    rewrite !(create_interactive_map_returns _ _ _ _ _ _ _ Hcenter Hedges).
    cbn [fst snd heap]. split; [done|].
    unfold built. rewrite !place_all_app. simpl. by rewrite Hplaced.
Qed.

Lemma lon_lat_point g lon lat :
  geom_type g = "Point" → lon_lat g = Returned (lon, lat) →
  geom_x g = Returned lon ∧ geom_y g = Returned lat.
Proof.
  unfold lon_lat. intros ->. simpl.
  destruct (geom_x g); simpl; [|done]. destruct (geom_y g); simpl; [|done].
  by intros [= -> ->].
Qed.

Lemma lon_lat_centroid g lon lat :
  geom_type g ≠ "Point" → lon_lat g = Returned (lon, lat) →
  ∃ centre, geom_centroid g = Returned centre ∧
            geom_x centre = Returned lon ∧ geom_y centre = Returned lat.
Proof.
  unfold lon_lat. intros Hne.
  destruct (String.eqb_spec (geom_type g) "Point") as [|_]; [done|]. simpl.
  destruct (geom_centroid g) as [centre|]; simpl; [|done].
  destruct (geom_x centre) eqn:Hx; simpl; [|done].
  destruct (geom_y centre) eqn:Hy; simpl; [|done].
  intros Heq. injection Heq as -> ->. by exists centre.
Qed.

Lemma marker_of_location g row d :
  marker_of g row = Returned d →
  ∃ lon lat, lon_lat g = Returned (lon, lat) ∧ marker_location d = (lat, lon).
Proof.
  unfold marker_of. destruct (lon_lat g) as [[lon lat]|]; simpl; [|done].
  destruct (popup_text_of row); simpl; [|done].
  intros [= <-]. by exists lon, lat.
Qed.

(** C7.  In the map [create_interactive_map] returns, every marker stands
    at the point itself when the row's geometry is a Point, and at the
    centroid of the geometry when it is a Polygon or a MultiPolygon
    (latitude from [y], longitude from [x]): the vertices of the polygon are
    never read. *)
Theorem marker_is_at_point_or_centroid graph pois location_name zoom w w' m :
  create_interactive_map graph pois location_name zoom w = (w', Returned m) →
  ∃ doc,
    document (heap w') m = Some doc ∧
    (∀ c, cluster_markers doc (cluster_name c) = Some (markers_for c pois)) ∧
    ∀ row d,
      placed row = Some d →
      ∃ g, geometry row = Some g ∧
        ((geom_type g = "Point" ∧
          ∃ lon lat, geom_x g = Returned lon ∧ geom_y g = Returned lat ∧
                     marker_location d = (lat, lon)) ∨
         ((geom_type g = "Polygon" ∨ geom_type g = "MultiPolygon") ∧
          ∃ centre lon lat,
            geom_centroid g = Returned centre ∧
            geom_x centre = Returned lon ∧ geom_y centre = Returned lat ∧
            marker_location d = (lat, lon))).
Proof.
  intros Hrun.
  destruct (create_interactive_map_inv _ _ _ _ _ _ _ Hrun)
    as (center & street_edges & _ & _ & _ & _ & _ & Hdoc).
  eexists. split; [exact Hdoc|]. split; [intros c; apply cluster_markers_expected|].
  intros row d Hplaced.
  apply placed_inv in Hplaced as (g & Hgeom & _ & Htype & Hmarker).
  exists g. split; [done|].
  apply marker_of_location in Hmarker as (lon & lat & Hll & Hloc).
  unfold marker_geom_types in Htype.
  destruct (decide (geom_type g = "Point")) as [Hpoint|Hother].
  - left. split; [done|]. exists lon, lat.
    destruct (lon_lat_point _ _ _ Hpoint Hll). done.
  - right. split.
    { rewrite !elem_of_cons, elem_of_nil in Htype. tauto. }
    destruct (lon_lat_centroid _ _ _ Hother Hll) as (centre & ? & ? & ?).
    by exists centre, lon, lat.
Qed.

Lemma append_empty (s : string) : s +:+ "" = s.
Proof.
  induction s as [|c s IH]; [done|].
  change (String c (s +:+ "") = String c s). by f_equal.
Qed.

(** One branch of the [if]/[elif] chain that appends the type. *)
Lemma type_branch row key keys (name : string) (rest : outcome string) :
  first_true_cell (key :: keys) row ≠ Some PyNaN →
  (first_true_cell keys row ≠ Some PyNaN →
   rest = Returned (name +:+ type_string_from keys row)) →
  (if truthy (row_get row key PyNone) then
     v <- row_item row key ;;
     formatted <- replace_title v ;;
     Returned (name +:+ "Type: " +:+ formatted)
   else rest)%out = Returned (name +:+ type_string_from (key :: keys) row).
Proof.
  unfold type_string_from. cbn [first_true_cell first_populated].
  unfold row_get, row_item, populated.
  destruct (attrs row !! key) as [[| |s]|]; simpl; try done; try (by intros; auto).
  destruct (String.eqb s ""); simpl; [by auto | done].
Qed.

(** The pop-up text when the first true cell among the four tags is not a
    [nan]: the formatted [name] cell, or "Unnamed POI" when the row has no
    such column, then the type string. *)
Lemma popup_text_of_returns row :
  first_true_cell type_tags row ≠ Some PyNaN →
  popup_text_of row =
    Returned (Py.format (row_get row "name" (PyStr "Unnamed POI"))
              +:+ type_string row).
Proof.
  intros Htrue. unfold popup_text_of, type_string, type_tags.
  apply type_branch; [exact Htrue|]. clear Htrue. intros Htrue.
  apply type_branch; [exact Htrue|]. clear Htrue. intros Htrue.
  apply type_branch; [exact Htrue|]. clear Htrue. intros Htrue.
  apply type_branch; [exact Htrue|]. intros _.
  unfold type_string_from. simpl. by rewrite append_empty.
Qed.

Lemma placed_with_popup row g lon lat text :
  geometry row = Some g → geom_bool g = true → geom_type g ∈ marker_geom_types →
  lon_lat g = Returned (lon, lat) →
  popup_text_of row = Returned text →
  placed row =
    Some {| marker_location := (lat, lon);
            marker_popup := {| popup_html := text; popup_max_width := 300 |};
            marker_icon := cluster_icon (classify row) |}.
Proof.
  intros Hgeom Hbool Htype Hll Htext. unfold placed, row_outcome.
  rewrite Hgeom, Hbool, bool_decide_eq_true_2 by done. simpl.
  unfold marker_of. rewrite Hll, Htext. simpl.
  rewrite poi_style_classify. simpl. by destruct (classify row).
Qed.

(** C8.  The pop-up of a row that gets a marker is its name followed by its
    type string ("Type: " and the value of the first populated tag among
    tourism, amenity, leisure, shop, underscores turned into spaces, in title
    case; nothing when none is populated) when the [name] cell holds a
    string, and "Unnamed POI" followed by the type string when the frame has
    no [name] column.  But when the frame has the column and the row has no
    name, the cell is [nan] (or [None]) and the default of [row.get] is not
    taken: the pop-up starts with "nan" (or "None"), not with "Unnamed POI".
    This is shown on the frame of one row whose geometry gives coordinates
    and whose first true type cell is not a [nan]: the builder returns a map
    with one marker, in the cluster of the row, with that pop-up. *)
Theorem popup_of_a_row_without_name_is_not_the_default
    graph row g lon lat location_name zoom center street_edges w :
  geometry row = Some g → geom_bool g = true → geom_type g ∈ marker_geom_types →
  lon_lat g = Returned (lon, lat) →
  first_true_cell type_tags row ≠ Some PyNaN →
  calculate_graph_centroid graph = Returned center →
  graph_to_gdfs_edges graph = Returned street_edges →
  ∃ w' doc d,
    create_interactive_map graph [row] location_name zoom w
    = (w', Returned (length (heap w))) ∧
    document (heap w') (length (heap w)) = Some doc ∧
    cluster_markers doc (cluster_name (classify row)) = Some [d] ∧
    match attrs row !! "name" with
    | Some (PyStr name) =>
        popup_html (marker_popup d) = name +:+ type_string row ∧
        popup_html (marker_popup d) = label row
    | None =>
        popup_html (marker_popup d) = "Unnamed POI" +:+ type_string row ∧
        popup_html (marker_popup d) = label row
    | Some PyNaN =>
        popup_html (marker_popup d) = "nan" +:+ type_string row ∧
        label row = "Unnamed POI" +:+ type_string row ∧
        popup_html (marker_popup d) ≠ label row
    | Some PyNone =>
        popup_html (marker_popup d) = "None" +:+ type_string row ∧
        label row = "Unnamed POI" +:+ type_string row ∧
        popup_html (marker_popup d) ≠ label row
    end.
Proof.
  intros Hgeom Hbool Htype Hll Htrue Hcenter Hedges.
  pose proof (placed_with_popup _ _ _ _ _ Hgeom Hbool Htype Hll
                (popup_text_of_returns _ Htrue)) as Hplaced.
  eexists _, _, _.
  split; [by apply (create_interactive_map_returns _ _ _ _ _ _ _ Hcenter Hedges)|].
  cbn [heap]. split; [apply built_document|].
  split.
  { rewrite cluster_markers_expected, markers_for_cons, Hplaced.
    by rewrite decide_True. }
  cbn [marker_popup popup_html]. unfold label, display_name, row_get.
  destruct (attrs row !! "name") as [[| |name]|]; simpl; done.
Qed.

End Specification.

(** ** The fixtures *)

(** The mean is the binary64 one: three nodes at latitude 0.1 have their
    centroid at 0.10000000000000002, and the order of the nodes matters in
    the last place. *)
Example centroid_of_three_tenths :
  calculate_graph_centroid
    {| nodes := [(1%Z, node 0.1 0.1); (2%Z, node 0.1 0.1); (3%Z, node 0.1 0.1)];
       edges := [] |}
  = Returned (0.10000000000000002, 0.10000000000000002)%float.
Proof. reflexivity. Qed.

Example centroid_depends_on_the_order_of_the_nodes :
  calculate_graph_centroid
    {| nodes := [(1%Z, node 0.1 0); (2%Z, node 0.2 0); (3%Z, node 0.3 0)];
       edges := [] |}
  = Returned (0.20000000000000004, 0)%float ∧
  calculate_graph_centroid
    {| nodes := [(3%Z, node 0.3 0); (2%Z, node 0.2 0); (1%Z, node 0.1 0)];
       edges := [] |}
  = Returned (0.19999999999999998, 0)%float.
Proof. split; reflexivity. Qed.

(** A row whose [tourism] cell is [nan]: the [nan] is true, so the pop-up
    text calls [replace] on it and raises; the row is logged and skipped
    before the classification is reached, and adds a marker to no cluster. *)
Example nan_cafe_is_skipped :
  row_outcome nan_cafe = Some (Raised float_has_no_replace) ∧
  skip_line nan_cafe =
    Some "Skipping POI 'Tomaselli' due to geometry error: 'float' object has no attribute 'replace'" ∧
  ∀ c, markers_for c [nan_cafe] = [].
Proof.
  split; [vm_compute; reflexivity|]. split; [vm_compute; reflexivity|].
  intros c. by destruct c; vm_compute.
Qed.

(** The dart has its centroid at its reflex vertex (0, 1). *)
Example dart_centroid : shape_centroid (polygon dart_ring) = (0, 1)%float.
Proof. reflexivity. Qed.

(** ** The properties on the samples *)


Lemma centroid_of_empty_graph_raises_witness :
  nodes empty_graph = [] ∧
  calculate_graph_centroid empty_graph =
    Raised (mk_exn ValueError "Graph has no nodes to calculate a centroid.").
Proof.
  split; [reflexivity|]. apply centroid_of_empty_graph_raises. reflexivity.
Defined.

Lemma no_pois_raises_the_fetch_failure_error_witness :
  @features_from_place Shape found_nothing "Atlantis" sample_tags = Returned [] ∧
  @features_from_place Shape no_services "Atlantis" sample_tags = Raised offline ∧
  (@get_points_of_interest Shape found_nothing "Atlantis" sample_tags empty_world).2 =
    Raised (mk_exn ValueError
              "Could not retrieve POIs for 'Atlantis'. Check tags or place name.") ∧
  (@get_points_of_interest Shape no_services "Atlantis" sample_tags empty_world).2 =
    (@get_points_of_interest Shape found_nothing "Atlantis" sample_tags empty_world).2.
Proof.
  split; [reflexivity|]. split; [reflexivity|].
  apply (no_pois_raises_the_fetch_failure_error
           found_nothing no_services "Atlantis" sample_tags offline empty_world);
    reflexivity.
Defined.

Lemma sample_run_returns :
  @create_interactive_map ascii_only Shape fixture_shapely no_services
    three_nodes sample_pois "Salzburg, Austria" default_initial_zoom empty_world
  = (sample_run.1, Returned 0).
Proof. vm_compute. reflexivity. Defined.

Lemma cafe_or_park_with_nan_tourism_gets_no_marker_witness :
  attrs frame_cafe !! "tourism" = Some PyNaN ∧
  tagged frame_cafe "amenity" "cafe" ∧
  poi_style frame_cafe 2 3 4 5 = ("green", "coffee", 3) ∧
  (∃ w' doc,
     @create_interactive_map ascii_only Shape fixture_shapely no_services
       three_nodes [frame_cafe] "Salzburg, Austria" 14 empty_world
     = (w', Returned 0) ∧
     document (heap w') 0 = Some doc ∧
     cluster_counts doc =
       [("Attractions", 0); ("Cafes", 0); ("Parks", 0); ("Other POIs", 0)] ∧
     "Skipping POI 'Tomaselli' due to geometry error: 'float' object has no attribute 'replace'"
       ∈ stdout w') ∧
  heap (@create_interactive_map ascii_only Shape fixture_shapely no_services
          three_nodes ([frame_castle] ++ frame_cafe :: [frame_park])
          "Salzburg, Austria" 14 empty_world).1 =
  heap (@create_interactive_map ascii_only Shape fixture_shapely no_services
          three_nodes ([frame_castle] ++ [frame_park])
          "Salzburg, Austria" 14 empty_world).1 ∧
  ∃ doc,
    document
      (heap (@create_interactive_map ascii_only Shape fixture_shapely no_services
               three_nodes mixed_frame "Salzburg, Austria" 14 empty_world).1) 0
    = Some doc ∧
    cluster_counts doc =
      [("Attractions", 1); ("Cafes", 0); ("Parks", 0); ("Other POIs", 0)].
Proof.
  assert (Htype : geom_type (point 13.04 47.8) ∈ marker_geom_types).
  { apply (bool_decide_eq_true_1 _). vm_compute. reflexivity. }
  destruct (@cafe_or_park_with_nan_tourism_gets_no_marker ascii_only Shape
              fixture_shapely no_services three_nodes frame_cafe
              (point 13.04 47.8) (13.04, 47.8)%float "Salzburg, Austria"
              14%Z (20, 30)%float (edges three_nodes))
    as (Hstyle & _ & Hone & Hany);
    [ reflexivity | reflexivity | exact Htype | reflexivity | reflexivity
    | left; reflexivity | reflexivity | reflexivity | ].
  split; [reflexivity|]. split; [reflexivity|].
  split; [exact (Hstyle 2 3 4 5)|].
  split.
  { destruct (Hone empty_world) as (w' & doc & Hrun & Hdoc & Hcounts & Hline).
    exists w', doc. split; [exact Hrun|]. split; [exact Hdoc|].
    split; [exact Hcounts | exact Hline]. }
  split; [exact (proj2 (Hany [frame_castle] [frame_park] empty_world))|].
  eexists. split; vm_compute; reflexivity.
Defined.

Lemma rows_without_marker_geometry_are_left_out_witness :
  geometry no_geometry = None ∧
  (geom_type (segment (0, 0)%float (2, 0)%float) ∉ marker_geom_types) ∧
  (@create_interactive_map ascii_only Shape fixture_shapely no_services
     three_nodes ([castle] ++ no_geometry :: [dart_park]) "Salzburg, Austria" 14 empty_world
   = @create_interactive_map ascii_only Shape fixture_shapely no_services
       three_nodes ([castle] ++ [dart_park]) "Salzburg, Austria" 14 empty_world) ∧
  (@create_interactive_map ascii_only Shape fixture_shapely no_services
     three_nodes ([castle] ++ riverside :: [dart_park]) "Salzburg, Austria" 14 empty_world
   = @create_interactive_map ascii_only Shape fixture_shapely no_services
       three_nodes ([castle] ++ [dart_park]) "Salzburg, Austria" 14 empty_world).
Proof.
  assert (Hsegment : geom_type (segment (0, 0)%float (2, 0)%float) ∉ marker_geom_types).
  { apply (bool_decide_eq_false_1 _). reflexivity. }
  split; [reflexivity|]. split; [exact Hsegment|]. split.
  - apply (@rows_without_marker_geometry_are_left_out ascii_only Shape fixture_shapely
             no_services three_nodes [castle] no_geometry [dart_park]
             "Salzburg, Austria" 14%Z 0 0 0 0 empty_world).
    left. reflexivity.
  - apply (@rows_without_marker_geometry_are_left_out ascii_only Shape fixture_shapely
             no_services three_nodes [castle] riverside [dart_park]
             "Salzburg, Austria" 14%Z 0 0 0 0 empty_world).
    right. exists (segment (0, 0)%float (2, 0)%float). split; [reflexivity | exact Hsegment].
Defined.

Lemma one_bad_row_never_aborts_the_build_witness :
  row_outcome nan_cafe = Some (Raised float_has_no_replace) ∧
  (@create_interactive_map ascii_only Shape fixture_shapely no_services
     three_nodes ([castle] ++ nan_cafe :: [dart_park]) "Salzburg, Austria" 14
     empty_world).2 = Returned 0 ∧
  heap (@create_interactive_map ascii_only Shape fixture_shapely no_services
          three_nodes ([castle] ++ nan_cafe :: [dart_park]) "Salzburg, Austria" 14
          empty_world).1 =
  heap (@create_interactive_map ascii_only Shape fixture_shapely no_services
          three_nodes ([castle] ++ [dart_park]) "Salzburg, Austria" 14
          empty_world).1 ∧
  "Skipping POI 'Tomaselli' due to geometry error: 'float' object has no attribute 'replace'"
    ∈ stdout (@create_interactive_map ascii_only Shape fixture_shapely no_services
                three_nodes ([castle] ++ nan_cafe :: [dart_park])
                "Salzburg, Austria" 14 empty_world).1 ∧
  ∃ w' m doc,
    @create_interactive_map ascii_only Shape fixture_shapely no_services
      three_nodes [castle; no_geometry] "Salzburg, Austria" 14 empty_world
    = (w', Returned m) ∧
    document (heap w') m = Some doc ∧
    cluster_counts doc =
      [("Attractions", 1); ("Cafes", 0); ("Parks", 0); ("Other POIs", 0)].
Proof.
  destruct (@one_bad_row_never_aborts_the_build ascii_only Shape fixture_shapely no_services)
    as (Hreturns & Hraising & Hscenario).
  assert (Houtcome : row_outcome nan_cafe = Some (Raised float_has_no_replace)).
  { vm_compute. reflexivity. }
  destruct (Hraising three_nodes [castle] nan_cafe [dart_park] "Salzburg, Austria"
              14%Z float_has_no_replace 0 0 0 0 empty_world Houtcome)
    as (_ & _ & Hheap & Hline).
  destruct (Hreturns three_nodes ([castle] ++ nan_cafe :: [dart_park])
              "Salzburg, Austria" 14%Z (20, 30)%float
              (edges three_nodes) empty_world) as [w1 Hrun1];
    [vm_compute; reflexivity | vm_compute; reflexivity |].
  assert (Hreturned :
            (@create_interactive_map ascii_only Shape fixture_shapely no_services
               three_nodes ([castle] ++ nan_cafe :: [dart_park]) "Salzburg, Austria" 14
               empty_world).2 = Returned 0).
  { rewrite Hrun1. reflexivity. }
  split; [exact Houtcome|]. split; [exact Hreturned|].
  split; [exact Hheap|]. split; [exact (Hline 0 Hreturned)|].
  destruct (Hscenario three_nodes (point 13 47) 13%float 47%float no_geometry
              [castle; no_geometry] "Salzburg, Austria" 14%Z
              (20, 30)%float (edges three_nodes) empty_world)
    as (w' & m & doc & Hrun & Hdoc & _ & Hcounts).
  - vm_compute. reflexivity.
  - vm_compute. reflexivity.
  - vm_compute. reflexivity.
  - apply (bool_decide_eq_true_1 _). vm_compute. reflexivity.
  - vm_compute. reflexivity.
  - vm_compute. reflexivity.
  - left. unfold castle. reflexivity.
  - exists w', m, doc. split; [exact Hrun|]. split; [exact Hdoc | exact Hcounts].
Defined.

Lemma marker_is_at_point_or_centroid_witness :
  ∃ doc,
    document (heap sample_run.1) 0 = Some doc ∧
    cluster_markers doc "Parks" = Some (markers_for Parks sample_pois) ∧
    (∃ d, placed castle = Some d ∧ marker_location d = (47, 13)%float) ∧
    (∃ d, placed dart_park = Some d ∧
          geom_centroid (polygon dart_ring) = Returned (point 0 1) ∧
          marker_location d = (1, 0)%float).
Proof.
  destruct (@marker_is_at_point_or_centroid ascii_only Shape fixture_shapely no_services
              three_nodes sample_pois "Salzburg, Austria" default_initial_zoom
              empty_world sample_run.1 0 sample_run_returns)
    as (doc & Hdoc & Hclusters & Hrows).
  exists doc. split; [exact Hdoc|]. split; [exact (Hclusters Parks)|]. split.
  - eexists. split; [reflexivity|]. reflexivity.
  - eexists. split; [reflexivity|]. split; reflexivity.
Defined.

Lemma popup_of_a_row_without_name_is_not_the_default_witness :
  attrs nameless_fountain !! "name" = Some PyNaN ∧
  label nameless_fountain = "Unnamed POIType: Attraction" ∧
  (∃ w' doc d,
     @create_interactive_map ascii_only Shape fixture_shapely no_services
       three_nodes [nameless_fountain] "Salzburg, Austria" 14 empty_world
     = (w', Returned 0) ∧
     document (heap w') 0 = Some doc ∧
     cluster_markers doc "Attractions" = Some [d] ∧
     popup_html (marker_popup d) = "nanType: Attraction") ∧
  (∃ w' doc d,
     @create_interactive_map ascii_only Shape fixture_shapely no_services
       three_nodes [fast_food] "Salzburg, Austria" 14 empty_world
     = (w', Returned 0) ∧
     document (heap w') 0 = Some doc ∧
     cluster_markers doc "Other POIs" = Some [d] ∧
     popup_html (marker_popup d) = "ImbissType: Fast Food").
Proof.
  assert (Htype : ∀ x y, geom_type (point x y) ∈ marker_geom_types).
  { intros x y. apply (bool_decide_eq_true_1 _). vm_compute. reflexivity. }
  split; [reflexivity|]. split; [reflexivity|]. split.
  - destruct (@popup_of_a_row_without_name_is_not_the_default ascii_only Shape
                fixture_shapely no_services three_nodes nameless_fountain
                (point 13.045 47.8) 13.045%float 47.8%float "Salzburg, Austria"
                14%Z (20, 30)%float (edges three_nodes) empty_world)
      as (w' & doc & d & Hrun & Hdoc & Hcluster & Hpopup);
      [ reflexivity | reflexivity | apply Htype | reflexivity
      | vm_compute; discriminate | reflexivity | reflexivity | ].
    exists w', doc, d. split; [exact Hrun|]. split; [exact Hdoc|].
    split; [exact Hcluster | exact (proj1 Hpopup)].
  - destruct (@popup_of_a_row_without_name_is_not_the_default ascii_only Shape
                fixture_shapely no_services three_nodes fast_food
                (point 13 48) 13%float 48%float "Salzburg, Austria"
                14%Z (20, 30)%float (edges three_nodes) empty_world)
      as (w' & doc & d & Hrun & Hdoc & Hcluster & Hpopup);
      [ reflexivity | reflexivity | apply Htype | reflexivity
      | vm_compute; discriminate | reflexivity | reflexivity | ].
    exists w', doc, d. split; [exact Hrun|]. split; [exact Hdoc|].
    split; [exact Hcluster | exact (proj1 Hpopup)].
Defined.

Lemma four_clusters_and_one_layer_control_witness :
  ∃ doc,
    document (heap sample_run.1) 0 = Some doc ∧
    (cluster_counts doc).*1 = ["Attractions"; "Cafes"; "Parks"; "Other POIs"] ∧
    layer_controls doc = 1.
Proof.
  destruct (@four_clusters_and_one_layer_control ascii_only Shape fixture_shapely no_services
              three_nodes sample_pois "Salzburg, Austria" default_initial_zoom
              empty_world sample_run.1 0 sample_run_returns)
    as (doc & Hdoc & Hnames & Hcontrol & _).
  exists doc. split; [exact Hdoc|]. split; [exact Hnames | exact Hcontrol].
Defined.

(** * Further properties of the script *)

(** ** The fetchers *)

Section Fetchers.
Context {G : Type} `{!Services G}.

Lemma get_street_network_run place_name network_type w :
  get_street_network place_name network_type w =
    match graph_from_place place_name network_type with
    | Returned g =>
        ({| stdout := stdout w ++
              [ "--- Downloading street network for: " +:+ place_name
                  +:+ " (" +:+ network_type +:+ " network) ---";
                "Street network graph created with "
                  +:+ pretty (length (nodes g)) +:+ " nodes and "
                  +:+ pretty (length (edges g)) +:+ " edges." ];
            heap := heap w |},
         Returned g)
    | Raised cause =>
        ({| stdout := stdout w ++
              [ "--- Downloading street network for: " +:+ place_name
                  +:+ " (" +:+ network_type +:+ " network) ---";
                "Error downloading street network for " +:+ place_name
                  +:+ ": " +:+ exn_str cause ];
            heap := heap w |},
         Raised (network_error place_name))
    end.
Proof.
  unfold get_street_network, bind, try_except, lift, print, raise, ret. simpl.
  destruct (graph_from_place place_name network_type); simpl;
    by rewrite <- app_assoc.
Qed.

Lemma get_points_of_interest_run place_name tags w :
  get_points_of_interest place_name tags w =
    match features_from_place place_name tags with
    | Returned [] =>
        ({| stdout := stdout w ++
              [ "--- Downloading Points of Interest for: " +:+ place_name
                  +:+ " with tags: " +:+ format_tags tags +:+ " ---";
                "Found 0 POIs of various types.";
                "No POIs found for " +:+ place_name +:+ " with the given tags.";
                "Error downloading POIs for " +:+ place_name +:+ " with tags "
                  +:+ format_tags tags +:+ ": No POIs found for '" +:+ place_name
                  +:+ "' with the specified tags." ];
            heap := heap w |},
         Raised (pois_error place_name))
    | Returned pois =>
        ({| stdout := stdout w ++
              [ "--- Downloading Points of Interest for: " +:+ place_name
                  +:+ " with tags: " +:+ format_tags tags +:+ " ---";
                "Found " +:+ pretty (length pois) +:+ " POIs of various types." ];
            heap := heap w |},
         Returned pois)
    | Raised cause =>
        ({| stdout := stdout w ++
              [ "--- Downloading Points of Interest for: " +:+ place_name
                  +:+ " with tags: " +:+ format_tags tags +:+ " ---";
                "Error downloading POIs for " +:+ place_name +:+ " with tags "
                  +:+ format_tags tags +:+ ": " +:+ exn_str cause ];
            heap := heap w |},
         Raised (pois_error place_name))
    end.
Proof.
  unfold get_points_of_interest, bind, try_except, lift, print, raise, ret. simpl.
  destruct (features_from_place place_name tags) as [[|row pois]|cause]; simpl;
    by rewrite <- !app_assoc.
Qed.

(** X3.  [get_street_network] returns exactly when the download returns,
    and then the graph it got; whatever the download raises, the caller
    gets the [ValueError] that names the place, and the cause is left in
    the last line printed only.  No folium element is touched. *)
Theorem get_street_network_wraps_every_failure place_name network_type w :
  let run := get_street_network place_name network_type w in
  heap run.1 = heap w ∧
  (∀ g, run.2 = Returned g ↔ graph_from_place place_name network_type = Returned g) ∧
  (∀ e, run.2 = Raised e →
     e = network_error place_name ∧
     ∃ cause,
       graph_from_place place_name network_type = Raised cause ∧
       last (stdout run.1) =
         Some ("Error downloading street network for " +:+ place_name
               +:+ ": " +:+ exn_str cause)).
Proof.
  intros run. subst run. rewrite get_street_network_run.
  destruct (graph_from_place place_name network_type) as [g|cause]; simpl.
  - split; [done|]. split; [|done]. intros g'. split; by intros [= ->].
  - split; [done|]. split; [done|]. intros e [= <-]. split; [done|].
    exists cause. split; [done|]. by rewrite last_app_cons.
Qed.

(** X4.  [get_points_of_interest] never returns an empty collection: it
    returns exactly when the query returns at least one row, and then the
    rows it got; in every other case (no row, or the query raises) the
    caller gets the [ValueError] "Could not retrieve POIs for '<place>'...".
    No folium element is touched. *)
Theorem get_points_of_interest_returns_rows_or_raises place_name tags w :
  let run := get_points_of_interest place_name tags w in
  heap run.1 = heap w ∧
  (∀ pois, run.2 = Returned pois ↔
           features_from_place place_name tags = Returned pois ∧ pois ≠ []) ∧
  (∀ e, run.2 = Raised e → e = pois_error place_name).
Proof.
  intros run. subst run. rewrite get_points_of_interest_run.
  destruct (features_from_place place_name tags) as [[|row pois]|cause]; simpl.
  - split; [done|]. split; [|by intros e [= <-]].
    intros pois. split; [done|]. by intros [[= <-] ?].
  - split; [done|]. split; [|done].
    intros pois'. split; [by intros [= <-]|]. by intros [[= <-] _].
  - split; [done|]. split; [|by intros e [= <-]].
    intros pois. split; [done|]. by intros [? _].
Qed.

End Fetchers.

(** ** The map builder: failures, the store, the log *)

Lemma evolves_prefix h h' :
  evolves (λ i, length h ≤ i) h h' → h `prefix_of` h'.
Proof.
  intros Hev. exists (drop (length h) h').
  rewrite <- (take_drop (length h) h') at 1. f_equal.
  apply list_eq. intros i. destruct (decide (i < length h)) as [Hlt|Hge].
  - rewrite lookup_take_lt by done.
    destruct (lookup_lt_is_Some_2 h i Hlt) as [e He]. rewrite He.
    eapply lookup_evolves; [exact Hev | simpl; lia | exact He].
  - rewrite lookup_take_ge by lia. symmetry. apply lookup_ge_None. lia.
Qed.

Lemma length_place_all_placed `{!Unicode} {G} `{!Shapely G} (ref : Cluster → nat)
    (pois : list (POI G)) h :
  length (place_all ref pois h) = length h + length (omap placed pois).
Proof.
  revert h. induction pois as [|row pois IH]; intros h; [simpl; lia|].
  cbn [place_all]. rewrite IH.
  change (omap placed (row :: pois))
    with (match placed row with
          | Some d => d :: omap placed pois
          | None => omap placed pois
          end).
  destruct (placed row); [|done].
  rewrite length_attach. cbn [length]. lia.
Qed.

Section MapBuilder.
Context `{!Unicode} {G : Type} `{!Shapely G} `{!Services G}.
Implicit Types (row : POI G) (pois : list (POI G)).

(** The whole run when the conversion of the edges raises. *)
Lemma create_interactive_map_run_without_edges
    graph pois location_name zoom center e w :
  calculate_graph_centroid graph = Returned center →
  graph_to_gdfs_edges graph = Raised e →
  create_interactive_map graph pois location_name zoom w =
    ({| stdout := stdout w ++
          [ "--- Creating interactive map for " +:+ location_name +:+ " ---";
            "Map will be centered at: Lat " +:+ format_4f center.1
              +:+ ", Lon " +:+ format_4f center.2;
            "Adding street network to map..." ];
        heap := heap w ++ [{| payload := FoliumMap center zoom "OpenStreetMap";
                              children := [] |}] |},
     Raised e).
Proof.
  intros Hcenter Hedges. unfold create_interactive_map.
  rewrite print_run, Hcenter, lift_run. destruct center as [lat lon].
  rewrite print_run, new_run, print_run, Hedges. unfold bind, lift. simpl.
  by rewrite <- !app_assoc.
Qed.

(** X5.  On a graph without nodes [create_interactive_map] fails fast: it
    raises the centroid's [ValueError] as it is, after its first line and
    before any folium object is made. *)
Theorem create_interactive_map_fails_fast_without_nodes
    graph pois location_name zoom w :
  nodes graph = [] →
  create_interactive_map graph pois location_name zoom w =
    ({| stdout := stdout w ++
                  ["--- Creating interactive map for " +:+ location_name +:+ " ---"];
        heap := heap w |},
     Raised (mk_exn ValueError "Graph has no nodes to calculate a centroid.")).
Proof.
  intros Hnodes. apply create_interactive_map_without_nodes.
  unfold calculate_graph_centroid. by rewrite Hnodes.
Qed.

(** X6.  When the conversion of the edges raises, [create_interactive_map]
    lets the exception through as it is (it is not turned into a
    [ValueError] as the fetchers do), after three lines; the map object is
    made by then and stays behind, with no layer. *)
Theorem create_interactive_map_lets_edge_errors_through
    graph pois location_name zoom center e w :
  calculate_graph_centroid graph = Returned center →
  graph_to_gdfs_edges graph = Raised e →
  create_interactive_map graph pois location_name zoom w =
    ({| stdout := stdout w ++
          [ "--- Creating interactive map for " +:+ location_name +:+ " ---";
            "Map will be centered at: Lat " +:+ format_4f center.1
              +:+ ", Lon " +:+ format_4f center.2;
            "Adding street network to map..." ];
        heap := heap w ++ [{| payload := FoliumMap center zoom "OpenStreetMap";
                              children := [] |}] |},
     Raised e).
Proof.
  intros Hcenter Hedges.
  exact (create_interactive_map_run_without_edges _ _ _ _ _ _ _ Hcenter Hedges).
Qed.

(** X7.  Whatever its outcome, [create_interactive_map] only adds to the
    store: the elements that were there before the call are a prefix of the
    elements after it, and every map document that could be read before
    the call reads the same after it. *)
Theorem create_interactive_map_keeps_earlier_maps
    graph pois location_name zoom w :
  let w' := (create_interactive_map graph pois location_name zoom w).1 in
  heap w `prefix_of` heap w' ∧
  ∀ m doc, document (heap w) m = Some doc → document (heap w') m = Some doc.
Proof.
  intros w'. subst w'.
  assert (Hev : evolves (λ i, length (heap w) ≤ i) (heap w)
                  (heap (create_interactive_map graph pois location_name zoom w).1)).
  { destruct (calculate_graph_centroid graph) as [center|e] eqn:Hcenter; last first.
    { rewrite (create_interactive_map_without_nodes _ _ _ _ _ _ Hcenter).
      apply evolves_refl. }
    destruct (graph_to_gdfs_edges graph) as [street_edges|e] eqn:Hedges; last first.
    { rewrite (create_interactive_map_run_without_edges
                 _ _ _ _ _ _ _ Hcenter Hedges).
      apply evolves_push. }
    rewrite (create_interactive_map_returns _ _ _ _ _ _ _ Hcenter Hedges).
    apply built_evolves. }
  split; [by apply evolves_prefix|].
  intros m doc Hdoc. eapply document_evolves; [exact Hev| |exact Hdoc]. done.
Qed.

Lemma enters_try_outcome row : enters_try row = bool_decide (is_Some (row_outcome row)).
Proof.
  unfold enters_try, row_outcome. destruct (geometry row) as [g|].
  - destruct (geom_bool g && bool_decide (geom_type g ∈ marker_geom_types)).
    + by rewrite bool_decide_eq_true_2 by eauto.
    + by rewrite bool_decide_eq_false_2 by (by intros [??]).
  - by rewrite bool_decide_eq_false_2 by (by intros [??]).
Qed.

Lemma markers_for_total pois :
  length (markers_for Attractions pois) + length (markers_for Cafes pois)
  + length (markers_for Parks pois) + length (markers_for OtherPOIs pois)
  = length (omap placed pois).
Proof.
  induction pois as [|row pois IH]; [done|].
  rewrite !markers_for_cons.
  change (omap placed (row :: pois))
    with (match placed row with
          | Some d => d :: omap placed pois
          | None => omap placed pois
          end).
  destruct (placed row) as [d|]; [|exact IH].
  destruct (classify row); simpl; lia.
Qed.

(** Every row that gets into the [try] block leaves it with a marker or
    with a line. *)
Lemma rows_accounted_for pois :
  length (omap placed pois) + length (omap skip_line pois)
  = length (List.filter enters_try pois).
Proof.
  induction pois as [|row pois IH]; [done|].
  change (omap placed (row :: pois))
    with (match placed row with
          | Some d => d :: omap placed pois
          | None => omap placed pois
          end).
  change (omap skip_line (row :: pois))
    with (match skip_line row with
          | Some line => line :: omap skip_line pois
          | None => omap skip_line pois
          end).
  cbn [List.filter]. rewrite enters_try_outcome.
  assert (Hplaced : placed row = match row_outcome row with
                                 | Some (Returned d) => Some d
                                 | _ => None
                                 end) by done.
  assert (Hline : skip_line row = match row_outcome row with
                                  | Some (Raised e) => Some (skipping row e)
                                  | _ => None
                                  end) by done.
  rewrite Hplaced, Hline. clear Hplaced Hline.
  destruct (row_outcome row) as [[d|e]|].
  - rewrite bool_decide_eq_true_2 by eauto. cbn [length]. lia.
  - rewrite bool_decide_eq_true_2 by eauto. cbn [length]. lia.
  - rewrite bool_decide_eq_false_2 by (by intros [??]). exact IH.
Qed.

(** X8.  No row is lost without a trace: when [create_interactive_map]
    returns, the markers of the four clusters and the "Skipping POI" lines
    it printed are together as many as the rows that passed the test on the
    geometry, and the lines it printed are the four opening lines, one line
    for each row whose [try] block raised, in row order, and the closing
    line. *)
Theorem every_tried_row_gives_a_marker_or_a_line
    graph pois location_name zoom w w' m :
  create_interactive_map graph pois location_name zoom w = (w', Returned m) →
  ∃ doc center,
    document (heap w') m = Some doc ∧
    calculate_graph_centroid graph = Returned center ∧
    stdout w' = stdout w ++ expected_log center location_name pois ∧
    sum_list (cluster_counts doc).*2 + length (omap skip_line pois)
    = length (List.filter enters_try pois).
Proof.
  intros Hrun.
  destruct (create_interactive_map_inv _ _ _ _ _ _ _ Hrun)
    as (center & street_edges & Hcenter & _ & _ & Hout & _ & Hdoc).
  exists (expected_document center zoom street_edges pois), center.
  split; [exact Hdoc|]. split; [exact Hcenter|]. split; [exact Hout|].
  rewrite cluster_counts_expected.
  pose proof (markers_for_total pois) as Hmarkers.
  pose proof (rows_accounted_for pois) as Hrows.
  change (sum_list ([ ("Attractions", length (markers_for Attractions pois));
                      ("Cafes", length (markers_for Cafes pois));
                      ("Parks", length (markers_for Parks pois));
                      ("Other POIs", length (markers_for OtherPOIs pois)) ].*2))
    with (length (markers_for Attractions pois)
          + (length (markers_for Cafes pois)
             + (length (markers_for Parks pois)
                + (length (markers_for OtherPOIs pois) + 0)))).
  lia.
Qed.

(** X9.  The map [create_interactive_map] returns is centred on the
    centroid of the graph, at the zoom asked for, on the "OpenStreetMap"
    tiles; its layers are, in this order, the street network with the
    converted edges, the four clusters, and the layer control, which is
    added last. *)
Theorem returned_map_is_centred_and_layered
    graph pois location_name zoom w w' m :
  create_interactive_map graph pois location_name zoom w = (w', Returned m) →
  ∃ doc center street_edges attractions cafes parks others,
    document (heap w') m = Some doc ∧
    calculate_graph_centroid graph = Returned center ∧
    graph_to_gdfs_edges graph = Returned street_edges ∧
    doc_center doc = center ∧ doc_zoom doc = zoom ∧
    doc_tiles doc = "OpenStreetMap" ∧
    doc_layers doc =
      [ StreetLayer "Street Network" street_edges;
        ClusterLayer "Attractions" attractions;
        ClusterLayer "Cafes" cafes;
        ClusterLayer "Parks" parks;
        ClusterLayer "Other POIs" others;
        ControlLayer ].
Proof.
  intros Hrun.
  destruct (create_interactive_map_inv _ _ _ _ _ _ _ Hrun)
    as (center & street_edges & Hcenter & Hedges & _ & _ & _ & Hdoc).
  eexists _, center, street_edges, _, _, _, _.
  split; [exact Hdoc|]. done.
Qed.

(** X11.  The location name is only printed: with another name, and from a
    state that differs in what was printed before, [create_interactive_map]
    leaves the same folium elements and gives the same result. *)
Theorem location_name_is_only_printed
    graph pois location_name location_name' zoom w w' :
  heap w = heap w' →
  heap (create_interactive_map graph pois location_name zoom w).1 =
    heap (create_interactive_map graph pois location_name' zoom w').1 ∧
  (create_interactive_map graph pois location_name zoom w).2 =
    (create_interactive_map graph pois location_name' zoom w').2.
Proof.
  intros Hheap.
  destruct (calculate_graph_centroid graph) as [center|e] eqn:Hcenter; last first.
  { by rewrite !(create_interactive_map_without_nodes _ _ _ _ _ _ Hcenter). }
  destruct (graph_to_gdfs_edges graph) as [street_edges|e] eqn:Hedges; last first.
  { rewrite !(create_interactive_map_run_without_edges
                _ _ _ _ _ _ _ Hcenter Hedges). simpl. by rewrite Hheap. }
  rewrite !(create_interactive_map_returns _ _ _ _ _ _ _ Hcenter Hedges).
  simpl. by rewrite Hheap.
Qed.

(** X12.  The order of the rows decides the order of the markers in a
    cluster and nothing else: on a permutation of the rows
    [create_interactive_map] returns a map with the same centre, the same
    number of markers in every cluster, and in every cluster the same
    markers up to their order. *)
Theorem row_order_only_orders_the_markers
    graph pois pois' location_name zoom w w1 m :
  pois ≡ₚ pois' →
  create_interactive_map graph pois location_name zoom w = (w1, Returned m) →
  ∃ w2 doc1 doc2,
    create_interactive_map graph pois' location_name zoom w = (w2, Returned m) ∧
    document (heap w1) m = Some doc1 ∧
    document (heap w2) m = Some doc2 ∧
    doc_center doc1 = doc_center doc2 ∧
    cluster_counts doc1 = cluster_counts doc2 ∧
    ∀ c, ∃ ms1 ms2,
      cluster_markers doc1 (cluster_name c) = Some ms1 ∧
      cluster_markers doc2 (cluster_name c) = Some ms2 ∧
      ms1 ≡ₚ ms2.
Proof.
  intros Hperm Hrun.
  destruct (create_interactive_map_inv _ _ _ _ _ _ _ Hrun)
    as (center & street_edges & Hcenter & Hedges & -> & _ & _ & Hdoc).
  assert (Hmarkers : ∀ c, markers_for c pois ≡ₚ markers_for c pois').
  { intros c. unfold markers_for. by rewrite Hperm. }
  eexists _, _, _.
  split; [by apply (create_interactive_map_returns _ _ _ _ _ _ _ Hcenter Hedges)|].
  split; [exact Hdoc|]. cbn [heap]. split; [apply built_document|].
  split; [done|]. split.
  - rewrite !cluster_counts_expected.
    by rewrite !(Permutation_length (Hmarkers _)).
  - intros c. exists (markers_for c pois), (markers_for c pois').
    by rewrite !cluster_markers_expected.
Qed.

(** X13.  A row whose geometry is false (an empty geometry) is left out
    like a row without geometry, whatever its type: it goes through the
    loop body without an exception and without any effect, and
    [create_interactive_map] does the same with or without it. *)
Theorem empty_geometries_are_left_out
    graph pois1 row g pois2 location_name zoom a c p o w :
  geometry row = Some g → geom_bool g = false →
  add_poi_marker a c p o row w = (w, Returned tt) ∧
  create_interactive_map graph (pois1 ++ row :: pois2) location_name zoom w =
    create_interactive_map graph (pois1 ++ pois2) location_name zoom w.
Proof.
  intros Hgeom Hfalse.
  assert (Hout : row_outcome row = None).
  { unfold row_outcome. by rewrite Hgeom, Hfalse. }
  split.
  - rewrite add_poi_marker_run. unfold skip_line, placed. rewrite Hout.
    destruct w. simpl. by rewrite app_nil_r.
  - apply create_interactive_map_rows.
    + rewrite !omap_app. simpl. unfold skip_line at 2. by rewrite Hout.
    + intros ref h. rewrite !place_all_app. simpl. unfold placed at 1.
      by rewrite Hout.
Qed.

Lemma children_at_attach_parent p parent h :
  parent < length h →
  children_at (attach p parent h) parent = children_at h parent ++ [length h].
Proof.
  intros Hlt. unfold children_at.
  destruct (lookup_lt_is_Some_2 h parent Hlt) as [e He].
  by rewrite (attach_lookup_parent _ _ _ _ He), He.
Qed.

Lemma children_at_attach_other p parent h i :
  i ≠ parent → i < length h →
  children_at (attach p parent h) i = children_at h i.
Proof.
  intros Hne Hlt. unfold children_at, attach.
  rewrite list_lookup_alter_ne by done. by rewrite lookup_app_l.
Qed.

Lemma all_cluster_children_attach_marker d c h m :
  m + 5 < length h →
  all_cluster_children (attach (Marker d) (refs_from m c) h) m
  ≡ₚ length h :: all_cluster_children h m.
Proof.
  intros Hlt. unfold all_cluster_children.
  destruct c; unfold refs_from; simpl.
  - rewrite children_at_attach_parent by lia.
    rewrite !(children_at_attach_other _ (m + 2)) by lia. solve_Permutation.
  - rewrite children_at_attach_parent by lia.
    rewrite !(children_at_attach_other _ (m + 3)) by lia. solve_Permutation.
  - rewrite children_at_attach_parent by lia.
    rewrite !(children_at_attach_other _ (m + 4)) by lia. solve_Permutation.
  - rewrite children_at_attach_parent by lia.
    rewrite !(children_at_attach_other _ (m + 5)) by lia. solve_Permutation.
Qed.

Lemma place_all_cluster_children pois m h :
  m + 5 < length h →
  NoDup (all_cluster_children h m) →
  Forall (λ i, i < length h) (all_cluster_children h m) →
  NoDup (all_cluster_children (place_all (refs_from m) pois h) m) ∧
  length (all_cluster_children (place_all (refs_from m) pois h) m)
  = length (all_cluster_children h m) + length (omap placed pois).
Proof.
  revert h. induction pois as [|row pois IH]; intros h Hlt Hnodup Hbound.
  - simpl. split; [done | lia].
  - cbn [place_all].
    change (omap placed (row :: pois))
      with (match placed row with
            | Some d => d :: omap placed pois
            | None => omap placed pois
            end).
    destruct (placed row) as [d|]; [|by apply IH].
    pose proof (all_cluster_children_attach_marker d (classify row) h m Hlt) as Hperm.
    destruct (IH (attach (Marker d) (refs_from m (classify row)) h)) as [Hnodup' Hlen].
    + rewrite length_attach. lia.
    + rewrite Hperm. apply NoDup_cons. split; [|done].
      intros Hin. eapply Forall_forall in Hbound; [|exact Hin]. lia.
    + rewrite Hperm, length_attach. constructor; [lia|].
      eapply Forall_impl; [exact Hbound|]. simpl. lia.
    + split; [done|]. rewrite Hlen, (Permutation_length Hperm). cbn [length]. lia.
Qed.

Lemma layer_at_children h i name ms :
  layer_at h i = Some (ClusterLayer name ms) →
  mapM (marker_at h) (children_at h i) = Some ms.
Proof.
  unfold layer_at, children_at. destruct (h !! i) as [e|]; [|done]. simpl.
  destruct (payload e); try done.
  destruct (mapM (marker_at h) (children e)); [|done]. by intros [= _ ->].
Qed.

(** X14.  In the map [create_interactive_map] returns, the four clusters
    hold references to marker objects only, no marker object is held twice
    (neither by two clusters nor twice by one), and they hold as many as
    rows got a marker: every marker made is in exactly one cluster. *)
Theorem every_marker_is_in_one_cluster graph pois location_name zoom w w' m :
  create_interactive_map graph pois location_name zoom w = (w', Returned m) →
  NoDup (all_cluster_children (heap w') m) ∧
  Forall (λ i, is_Some (marker_at (heap w') i)) (all_cluster_children (heap w') m) ∧
  length (all_cluster_children (heap w') m) = length (omap placed pois).
Proof.
  intros Hrun.
  destruct (create_interactive_map_inv _ _ _ _ _ _ _ Hrun)
    as (center & street_edges & _ & _ & -> & _ & Hheap & Hdoc).
  set (n := length (heap w)) in *.
  set (h0 := before_loop center zoom street_edges (heap w)).
  assert (Hlen0 : length h0 = n + 6).
  { unfold h0. by rewrite before_loop_shape, length_app. }
  assert (Hnone : all_cluster_children h0 n = []).
  { unfold all_cluster_children, children_at, h0. rewrite before_loop_shape.
    rewrite !lookup_app_r by (unfold n; lia).
    replace (n + 2 - length (heap w)) with 2 by (unfold n; lia).
    replace (n + 3 - length (heap w)) with 3 by (unfold n; lia).
    replace (n + 4 - length (heap w)) with 4 by (unfold n; lia).
    replace (n + 5 - length (heap w)) with 5 by (unfold n; lia).
    done. }
  destruct (place_all_cluster_children pois n h0) as [Hnodup Hlen].
  { lia. } { rewrite Hnone. constructor. } { by rewrite Hnone. }
  set (h1 := place_all (refs_from n) pois h0) in *.
  assert (Hlen1 : n + 6 ≤ length h1).
  { unfold h1. pose proof (length_place_all (refs_from n) pois h0). lia. }
  assert (Hsame : all_cluster_children (heap w') n = all_cluster_children h1 n).
  { rewrite Hheap. unfold built. fold n h0 h1. unfold all_cluster_children.
    by rewrite !(children_at_attach_other _ n) by lia. }
  rewrite Hsame. split; [exact Hnodup|]. split; [|by rewrite Hlen, Hnone].
  rewrite <- Hsame. unfold document in Hdoc.
  destruct (heap w' !! n) as [root|] eqn:Hroot; [|done]. simpl in Hdoc.
  assert (Hclusters : ∀ c, ∃ ms, layer_at (heap w') (refs_from n c)
                                 = Some (ClusterLayer (cluster_name c) ms)).
  { rewrite Hheap. unfold built. fold n h0 h1.
    assert (Hat : ∀ c, layer_at h0 (refs_from n c) =
                       Some (ClusterLayer (cluster_name c) ([] ++ []))).
    { intros c. unfold layer_at, h0. rewrite before_loop_shape.
      rewrite lookup_app_r by (destruct c; unfold refs_from, n; simpl; lia).
      destruct c; unfold refs_from; simpl.
      - by replace (n + 2 - length (heap w)) with 2 by (unfold n; lia).
      - by replace (n + 3 - length (heap w)) with 3 by (unfold n; lia).
      - by replace (n + 4 - length (heap w)) with 4 by (unfold n; lia).
      - by replace (n + 5 - length (heap w)) with 5 by (unfold n; lia). }
    destruct (place_all_spec (refs_from n) pois (refs_from_inj n) h0
                cluster_name (λ _, []) Hat) as [_ Hlayers].
    intros c. eexists. apply layer_at_attach_other; [|apply Hlayers].
    destruct c; unfold refs_from; simpl; lia. }
  unfold all_cluster_children. rewrite !Forall_app.
  assert (Hmarkers : ∀ c, Forall (λ i, is_Some (marker_at (heap w') i))
                            (children_at (heap w') (refs_from n c))).
  { intros c. destruct (Hclusters c) as [ms Hlayer].
    apply layer_at_children, mapM_Some in Hlayer.
    induction Hlayer; constructor; eauto. }
  split; [exact (Hmarkers Attractions)|]. split; [exact (Hmarkers Cafes)|].
  split; [exact (Hmarkers Parks) | exact (Hmarkers OtherPOIs)].
Qed.

Lemma type_branch_raises row key (name : string) (rest : outcome string) e :
  (if truthy (row_get row key PyNone) then
     v <- row_item row key ;;
     formatted <- replace_title v ;;
     Returned (name +:+ "Type: " +:+ formatted)
   else rest)%out = Raised e →
  (e = float_has_no_replace ∧ attrs row !! key = Some PyNaN) ∨ rest = Raised e.
Proof.
  unfold row_get, row_item. destruct (attrs row !! key) as [[| |s]|]; simpl.
  - by right.
  - intros [= <-]. by left.
  - destruct (String.eqb s ""); simpl; [by right | done].
  - by right.
Qed.

Lemma popup_text_of_raises row e :
  popup_text_of row = Raised e →
  e = float_has_no_replace ∧
  ∃ key, key ∈ type_tags ∧ attrs row !! key = Some PyNaN.
Proof.
  unfold popup_text_of, type_tags. intros Htext.
  apply type_branch_raises in Htext as [[-> Hnan]|Htext].
  { split; [done|]. exists "tourism". split; [|done]. set_solver. }
  apply type_branch_raises in Htext as [[-> Hnan]|Htext].
  { split; [done|]. exists "amenity". split; [|done]. set_solver. }
  apply type_branch_raises in Htext as [[-> Hnan]|Htext].
  { split; [done|]. exists "leisure". split; [|done]. set_solver. }
  apply type_branch_raises in Htext as [[-> Hnan]|Htext].
  { split; [done|]. exists "shop". split; [|done]. set_solver. }
  done.
Qed.

(** X15.  What the [try] block loses: a row that passes the test on the
    geometry and still gets no marker either has a geometry that gives no
    coordinates, or has a [nan] in one of the cells tourism, amenity,
    leisure, shop; in the second case it is reported as a "geometry error"
    with the message of the [AttributeError] that [replace] on a float
    raises. *)
Theorem rows_lost_in_the_try row g :
  geometry row = Some g → enters_try row = true → placed row = None →
  (∃ e, lon_lat g = Raised e ∧ skip_line row = Some (skipping row e)) ∨
  ((∃ key, key ∈ type_tags ∧ attrs row !! key = Some PyNaN) ∧
   skip_line row =
     Some ("Skipping POI '" +:+ Py.format (row_get row "name" (PyStr "Unnamed"))
           +:+ "' due to geometry error: 'float' object has no attribute 'replace'")).
Proof.
  intros Hgeom Henters. unfold placed, skip_line, row_outcome.
  unfold enters_try in Henters. rewrite Hgeom in *. rewrite Henters.
  unfold marker_of. destruct (lon_lat g) as [ll|e]; simpl; [|by left; eauto].
  destruct (popup_text_of row) as [text|e] eqn:Htext; simpl; [done|].
  intros _. right. apply popup_text_of_raises in Htext as [-> Hkey]. done.
Qed.

End MapBuilder.

(** ** The script run as a program *)

Section Main.
Context `{!Unicode} {G : Type} `{!Shapely G} `{!Services G}.
Variable save : nat → string → M unit.
Variable subclass_of_ValueError : string → bool.

Lemma main_run w :
  main save subclass_of_ValueError w =
    match
      (G_salzburg <- get_street_network "Salzburg, Austria" default_network_type ;;
       pois_salzburg <- get_points_of_interest "Salzburg, Austria" poi_tags ;;
       salzburg_map <- create_interactive_map G_salzburg pois_salzburg
                         "Salzburg, Austria" default_initial_zoom ;;
       _ <- save salzburg_map "salzburg_interactive_map.html" ;;
       print "Map saved as salzburg_interactive_map.html") w
    with
    | (w', Returned _) => (w', Returned tt)
    | (w', Raised e) =>
        ({| stdout := stdout w' ++
              [ (if isinstance_ValueError subclass_of_ValueError e
                 then "An error occurred: " else "An unexpected error occurred: ")
                +:+ exn_str e ];
            heap := heap w' |},
         Returned tt)
    end.
Proof.
  unfold main, try_except.
  match goal with |- context [match ?body w with _ => _ end] =>
    destruct (body w) as [w' [[]|e]] end; [done|].
  by destruct (isinstance_ValueError subclass_of_ValueError e).
Qed.

(** X17.  The script never ends with an exception: whatever the services
    and [save] do, it returns, and the last line it printed is "Map saved
    as salzburg_interactive_map.html", or "An error occurred: " with the
    message of a [ValueError], or "An unexpected error occurred: " with the
    message of an exception of another kind. *)
Theorem main_always_returns_and_reports w :
  (main save subclass_of_ValueError w).2 = Returned tt ∧
  ∃ line,
    last (stdout (main save subclass_of_ValueError w).1) = Some line ∧
    (line = "Map saved as salzburg_interactive_map.html" ∨
     (∃ e, isinstance_ValueError subclass_of_ValueError e = true ∧
           line = "An error occurred: " +:+ exn_str e) ∨
     (∃ e, isinstance_ValueError subclass_of_ValueError e = false ∧
           line = "An unexpected error occurred: " +:+ exn_str e)).
Proof.
  rewrite main_run.
  match goal with |- context [match ?body w with _ => _ end] =>
    destruct (body w) as [w' [[]|e]] eqn:Hbody end.
  - split; [done|]. exists "Map saved as salzburg_interactive_map.html".
    split; [|by left]. cbn [fst].
    unfold bind in Hbody.
    destruct (get_street_network _ _ w) as [w1 [g|?]]; [|done].
    destruct (get_points_of_interest _ _ w1) as [w2 [pois|?]]; [|done].
    destruct (create_interactive_map _ _ _ _ w2) as [w3 [m|?]]; [|done].
    destruct (save m _ w3) as [w4 [[]|?]]; [|done].
    injection Hbody as <-. simpl. apply last_snoc.
  - split; [done|]. cbn [fst stdout]. eexists. split; [apply last_snoc|].
    destruct (isinstance_ValueError subclass_of_ValueError e) eqn:Hclass.
    + right. left. by exists e.
    + right. right. by exists e.
Qed.

(** X18.  When the street network cannot be downloaded the script stops
    there: it prints the line of the download, the cause, and "An error
    occurred: Could not retrieve street network for 'Salzburg, Austria'.
    Check place name or network type."; the points of interest are not
    asked for, no folium object is made, nothing is saved. *)
Theorem main_stops_when_the_network_fails cause w :
  graph_from_place "Salzburg, Austria" "walk" = Raised cause →
  main save subclass_of_ValueError w =
    ({| stdout := stdout w ++
          [ "--- Downloading street network for: Salzburg, Austria (walk network) ---";
            "Error downloading street network for Salzburg, Austria: " +:+ exn_str cause;
            "An error occurred: Could not retrieve street network for 'Salzburg, Austria'. Check place name or network type." ];
        heap := heap w |},
     Returned tt).
Proof.
  intros Hnet. rewrite main_run. unfold bind at 1.
  rewrite get_street_network_run. unfold default_network_type. rewrite Hnet.
  simpl. by rewrite <- app_assoc.
Qed.

(** X19.  When the street network is there but the query for the points
    of interest gives no row, or raises, the script stops there: its last
    line is "An error occurred: Could not retrieve POIs for 'Salzburg,
    Austria'. Check tags or place name.", and no folium object is made. *)
Theorem main_stops_when_no_poi_is_found network w :
  graph_from_place "Salzburg, Austria" "walk" = Returned network →
  features_from_place "Salzburg, Austria" poi_tags = Returned [] ∨
  (∃ cause, features_from_place "Salzburg, Austria" poi_tags = Raised cause) →
  heap (main save subclass_of_ValueError w).1 = heap w ∧
  last (stdout (main save subclass_of_ValueError w).1) =
    Some "An error occurred: Could not retrieve POIs for 'Salzburg, Austria'. Check tags or place name.".
Proof.
  intros Hnet Hpois.
  assert (∃ out,
            main save subclass_of_ValueError w =
              ({| stdout := out ++ ["An error occurred: Could not retrieve POIs for 'Salzburg, Austria'. Check tags or place name."];
                  heap := heap w |}, Returned tt)) as [out ->].
  { rewrite main_run. unfold bind at 1.
    rewrite get_street_network_run. unfold default_network_type. rewrite Hnet.
    unfold bind at 1. rewrite get_points_of_interest_run.
    destruct Hpois as [-> | [cause ->]]; simpl; eexists; reflexivity. }
  split; [done | apply last_snoc].
Qed.

(** X20.  An exception of [create_interactive_map] reaches the top of the
    script and is reported by its class: a street network without nodes is
    reported as "An error occurred: Graph has no nodes to calculate a
    centroid.", with no folium object made; an exception [e] of the
    conversion of the edges is reported as "An error occurred: " or "An
    unexpected error occurred: " followed by its message, according to
    whether [e] is a [ValueError]. *)
Theorem main_reports_builder_errors_by_class network pois w :
  graph_from_place "Salzburg, Austria" "walk" = Returned network →
  features_from_place "Salzburg, Austria" poi_tags = Returned pois →
  pois ≠ [] →
  (nodes network = [] →
   heap (main save subclass_of_ValueError w).1 = heap w ∧
   last (stdout (main save subclass_of_ValueError w).1) =
     Some "An error occurred: Graph has no nodes to calculate a centroid.") ∧
  (∀ center e,
     calculate_graph_centroid network = Returned center →
     graph_to_gdfs_edges network = Raised e →
     last (stdout (main save subclass_of_ValueError w).1) =
       Some ((if isinstance_ValueError subclass_of_ValueError e
              then "An error occurred: " else "An unexpected error occurred: ")
             +:+ exn_str e)).
Proof.
  intros Hnet Hpois Hne.
  assert (Hmain : ∀ (lines : list string) (e : exn) (left_behind : list Element),
            (∀ w2, create_interactive_map network pois "Salzburg, Austria"
                     default_initial_zoom w2
                   = ({| stdout := stdout w2 ++ lines;
                         heap := heap w2 ++ left_behind |}, Raised e)) →
            ∃ out,
              main save subclass_of_ValueError w =
                ({| stdout := out ++
                      [ (if isinstance_ValueError subclass_of_ValueError e
                         then "An error occurred: "
                         else "An unexpected error occurred: ") +:+ exn_str e ];
                    heap := heap w ++ left_behind |}, Returned tt)).
  { intros lines e left_behind Hbuild. rewrite main_run. unfold bind at 1.
    rewrite get_street_network_run. unfold default_network_type. rewrite Hnet.
    unfold bind at 1. rewrite get_points_of_interest_run, Hpois.
    destruct pois as [|row rest]; [done|].
    unfold bind at 1. rewrite Hbuild. simpl. eexists. reflexivity. }
  split.
  - intros Hnodes.
    destruct (Hmain ["--- Creating interactive map for Salzburg, Austria ---"]
                (mk_exn ValueError "Graph has no nodes to calculate a centroid.") [])
      as [out ->].
    { intros w2. rewrite app_nil_r.
      apply create_interactive_map_without_nodes.
      unfold calculate_graph_centroid. by rewrite Hnodes. }
    cbn [fst heap stdout]. rewrite app_nil_r. split; [done | apply last_snoc].
  - intros center e Hcenter Hedges.
    destruct (Hmain
                [ "--- Creating interactive map for Salzburg, Austria ---";
                  "Map will be centered at: Lat " +:+ format_4f center.1
                    +:+ ", Lon " +:+ format_4f center.2;
                  "Adding street network to map..." ]
                e
                [{| payload := FoliumMap center default_initial_zoom "OpenStreetMap";
                    children := [] |}])
      as [out ->]; [|apply last_snoc].
    intros w2.
    by apply create_interactive_map_run_without_edges.
Qed.

(** X21.  When both downloads give something and the map is built, [save]
    is called on the map just built, with the file name
    "salzburg_interactive_map.html", in a state where the map's document is
    the expected one; if it returns, the script ends with "Map saved as
    salzburg_interactive_map.html", and if it raises, with the report of
    that exception. *)
Theorem main_saves_the_map_it_built network pois center street_edges w :
  graph_from_place "Salzburg, Austria" "walk" = Returned network →
  features_from_place "Salzburg, Austria" poi_tags = Returned pois →
  pois ≠ [] →
  calculate_graph_centroid network = Returned center →
  graph_to_gdfs_edges network = Returned street_edges →
  ∃ w3,
    heap w3 = built center default_initial_zoom street_edges pois (heap w) ∧
    document (heap w3) (length (heap w)) =
      Some (expected_document center default_initial_zoom street_edges pois) ∧
    main save subclass_of_ValueError w =
      match save (length (heap w)) "salzburg_interactive_map.html" w3 with
      | (w4, Returned _) =>
          ({| stdout := stdout w4 ++ ["Map saved as salzburg_interactive_map.html"];
              heap := heap w4 |}, Returned tt)
      | (w4, Raised e) =>
          ({| stdout := stdout w4 ++
                [ (if isinstance_ValueError subclass_of_ValueError e
                   then "An error occurred: " else "An unexpected error occurred: ")
                  +:+ exn_str e ];
              heap := heap w4 |}, Returned tt)
      end.
Proof.
  intros Hnet Hpois Hne Hcenter Hedges.
  pose proof (get_street_network_run "Salzburg, Austria" default_network_type w) as Hrun1.
  unfold default_network_type in Hrun1. rewrite Hnet in Hrun1.
  match type of Hrun1 with _ = (?w1, _) =>
    pose proof (get_points_of_interest_run "Salzburg, Austria" poi_tags w1) as Hrun2;
    rewrite Hpois in Hrun2
  end.
  destruct pois as [|row rest]; [done|]. cbn [heap stdout] in Hrun2.
  match type of Hrun2 with _ = (?w2, _) =>
    pose proof (create_interactive_map_returns network (row :: rest)
                  "Salzburg, Austria" default_initial_zoom center street_edges w2
                  Hcenter Hedges) as Hrun3
  end.
  cbn [heap stdout] in Hrun3.
  match type of Hrun3 with _ = (?w3, _) => exists w3 end.
  split; [done|]. split; [apply built_document|].
  rewrite main_run. unfold default_network_type.
  unfold bind at 1. rewrite Hrun1.
  unfold bind at 1. rewrite Hrun2.
  unfold bind at 1. rewrite Hrun3.
  unfold bind at 1.
  match goal with |- context [save ?m ?f ?w3] =>
    destruct (save m f w3) as [w4 [[]|e]] end; done.
Qed.

End Main.

(** ** The further properties on the samples *)

Lemma get_street_network_wraps_every_failure_witness :
  (@get_street_network Shape salzburg_services "Salzburg, Austria" "walk" empty_world).2
    = Returned three_nodes ∧
  (@get_street_network Shape no_services "Salzburg, Austria" "walk" empty_world).2
    = Raised (network_error "Salzburg, Austria") ∧
  last (stdout (@get_street_network Shape no_services "Salzburg, Austria" "walk"
                  empty_world).1)
    = Some "Error downloading street network for Salzburg, Austria: Max retries exceeded".
Proof.
  destruct (@get_street_network_wraps_every_failure Shape salzburg_services
              "Salzburg, Austria" "walk" empty_world) as (_ & Hreturns & _).
  destruct (@get_street_network_wraps_every_failure Shape no_services
              "Salzburg, Austria" "walk" empty_world) as (_ & _ & Hraises).
  split; [apply Hreturns; reflexivity|].
  destruct (Hraises (network_error "Salzburg, Austria")) as (_ & cause & Hcause & Hlast);
    [reflexivity|].
  split; [reflexivity|]. rewrite Hlast. injection Hcause as <-. reflexivity.
Defined.

Lemma get_points_of_interest_returns_rows_or_raises_witness :
  (@get_points_of_interest Shape salzburg_services "Salzburg, Austria" poi_tags
     empty_world).2 = Returned sample_pois ∧
  sample_pois ≠ [] ∧
  (@get_points_of_interest Shape found_nothing "Salzburg, Austria" poi_tags
     empty_world).2 = Raised (pois_error "Salzburg, Austria") ∧
  ∀ e, (@get_points_of_interest Shape found_nothing "Salzburg, Austria" poi_tags
          empty_world).2 = Raised e → e = pois_error "Salzburg, Austria".
Proof.
  destruct (@get_points_of_interest_returns_rows_or_raises Shape salzburg_services
              "Salzburg, Austria" poi_tags empty_world) as (_ & Hreturns & _).
  destruct (@get_points_of_interest_returns_rows_or_raises Shape found_nothing
              "Salzburg, Austria" poi_tags empty_world) as (_ & _ & Hraises).
  split; [apply Hreturns; split; [reflexivity | discriminate]|].
  split; [discriminate|]. split; [reflexivity | exact Hraises].
Defined.

Lemma create_interactive_map_fails_fast_without_nodes_witness :
  nodes empty_graph = [] ∧
  @create_interactive_map ascii_only Shape fixture_shapely no_services
    empty_graph sample_pois "Salzburg, Austria" 14 empty_world =
    ({| stdout := ["--- Creating interactive map for Salzburg, Austria ---"];
        heap := [] |},
     Raised (mk_exn ValueError "Graph has no nodes to calculate a centroid.")).
Proof.
  split; [reflexivity|].
  apply (@create_interactive_map_fails_fast_without_nodes ascii_only Shape fixture_shapely
           no_services empty_graph sample_pois "Salzburg, Austria" 14%Z empty_world).
  reflexivity.
Defined.

Lemma create_interactive_map_lets_edge_errors_through_witness :
  @graph_to_gdfs_edges Shape (strict_services (Returned lonely_node) (Returned sample_pois))
    lonely_node = Raised no_edges ∧
  (@create_interactive_map ascii_only Shape fixture_shapely
     (strict_services (Returned lonely_node) (Returned sample_pois))
     lonely_node sample_pois "Salzburg, Austria" 14 empty_world).2 = Raised no_edges ∧
  heap (@create_interactive_map ascii_only Shape fixture_shapely
          (strict_services (Returned lonely_node) (Returned sample_pois))
          lonely_node sample_pois "Salzburg, Austria" 14 empty_world).1 =
    [{| payload := FoliumMap (47, 13)%float 14 "OpenStreetMap"; children := [] |}].
Proof.
  split; [reflexivity|].
  rewrite (@create_interactive_map_lets_edge_errors_through ascii_only Shape fixture_shapely
             (strict_services (Returned lonely_node) (Returned sample_pois))
             lonely_node sample_pois "Salzburg, Austria" 14%Z
             (47, 13)%float no_edges empty_world);
    [split; reflexivity | vm_compute; reflexivity | reflexivity].
Defined.

Lemma create_interactive_map_keeps_earlier_maps_witness :
  ∃ doc,
    document (heap sample_run.1) 0 = Some doc ∧
    heap sample_run.1 `prefix_of`
      heap (@create_interactive_map ascii_only Shape fixture_shapely no_services
              three_nodes [castle] "Hallein, Austria" 12 sample_run.1).1 ∧
    document
      (heap (@create_interactive_map ascii_only Shape fixture_shapely no_services
               three_nodes [castle] "Hallein, Austria" 12 sample_run.1).1) 0
    = Some doc.
Proof.
  destruct (@create_interactive_map_keeps_earlier_maps ascii_only Shape fixture_shapely
              no_services three_nodes [castle] "Hallein, Austria" 12%Z sample_run.1)
    as [Hprefix Hkeeps].
  eexists. split; [vm_compute; reflexivity|]. split; [exact Hprefix|].
  apply Hkeeps. vm_compute. reflexivity.
Defined.

Lemma every_tried_row_gives_a_marker_or_a_line_witness :
  ∃ doc,
    document (heap sample_run.1) 0 = Some doc ∧
    sum_list (cluster_counts doc).*2 + length (omap skip_line sample_pois)
    = length (List.filter enters_try sample_pois) ∧
    length (List.filter enters_try sample_pois) = 5.
Proof.
  destruct (@every_tried_row_gives_a_marker_or_a_line ascii_only Shape fixture_shapely
              no_services three_nodes sample_pois "Salzburg, Austria"
              default_initial_zoom empty_world sample_run.1 0 sample_run_returns)
    as (doc & center & Hdoc & _ & _ & Hcount).
  exists doc. split; [exact Hdoc|]. split; [exact Hcount|]. vm_compute. reflexivity.
Defined.

Lemma returned_map_is_centred_and_layered_witness :
  ∃ doc,
    document (heap sample_run.1) 0 = Some doc ∧
    doc_zoom doc = 14%Z ∧ doc_tiles doc = "OpenStreetMap" ∧
    head (doc_layers doc) = Some (StreetLayer "Street Network" (edges three_nodes)) ∧
    last (doc_layers doc) = Some ControlLayer.
Proof.
  destruct (@returned_map_is_centred_and_layered ascii_only Shape fixture_shapely
              no_services three_nodes sample_pois "Salzburg, Austria"
              default_initial_zoom empty_world sample_run.1 0 sample_run_returns)
    as (doc & center & street_edges & a & c & p & o
        & Hdoc & _ & Hedges & _ & Hzoom & Htiles & Hlayers).
  exists doc. split; [exact Hdoc|]. split; [exact Hzoom|]. split; [exact Htiles|].
  rewrite Hlayers. injection Hedges as <-. split; reflexivity.
Defined.

Lemma location_name_is_only_printed_witness :
  heap empty_world = heap {| stdout := ["earlier output"]; heap := [] |} ∧
  heap (@create_interactive_map ascii_only Shape fixture_shapely no_services
          three_nodes sample_pois "Salzburg, Austria" 14 empty_world).1 =
  heap (@create_interactive_map ascii_only Shape fixture_shapely no_services
          three_nodes sample_pois "Salzburg"
          14 {| stdout := ["earlier output"]; heap := [] |}).1.
Proof.
  split; [reflexivity|].
  apply (@location_name_is_only_printed ascii_only Shape fixture_shapely no_services
           three_nodes sample_pois "Salzburg, Austria" "Salzburg" 14%Z
           empty_world {| stdout := ["earlier output"]; heap := [] |}).
  reflexivity.
Defined.

Lemma row_order_only_orders_the_markers_witness :
  sample_pois ≡ₚ reverse sample_pois ∧
  ∃ w2 doc1 doc2,
    @create_interactive_map ascii_only Shape fixture_shapely no_services
      three_nodes (reverse sample_pois) "Salzburg, Austria" default_initial_zoom
      empty_world = (w2, Returned 0) ∧
    document (heap sample_run.1) 0 = Some doc1 ∧
    document (heap w2) 0 = Some doc2 ∧
    cluster_counts doc1 = cluster_counts doc2.
Proof.
  assert (Hperm : sample_pois ≡ₚ reverse sample_pois).
  { symmetry. apply reverse_Permutation. }
  split; [exact Hperm|].
  destruct (@row_order_only_orders_the_markers ascii_only Shape fixture_shapely no_services
              three_nodes sample_pois (reverse sample_pois) "Salzburg, Austria"
              default_initial_zoom empty_world sample_run.1 0 Hperm sample_run_returns)
    as (w2 & doc1 & doc2 & Hrun & Hdoc1 & Hdoc2 & _ & Hcounts & _).
  exists w2, doc1, doc2. split; [exact Hrun|]. split; [exact Hdoc1|].
  split; [exact Hdoc2 | exact Hcounts].
Defined.

Lemma empty_geometries_are_left_out_witness :
  geometry empty_lot = Some EmptyPolygon ∧
  geom_bool EmptyPolygon = false ∧
  geom_type EmptyPolygon ∈ marker_geom_types ∧
  @create_interactive_map ascii_only MaybeEmpty maybe_empty_shapely services_for_maybe_empty
    three_nodes ([] ++ empty_lot :: []) "Salzburg, Austria" 14 empty_world =
  @create_interactive_map ascii_only MaybeEmpty maybe_empty_shapely services_for_maybe_empty
    three_nodes ([] ++ []) "Salzburg, Austria" 14 empty_world.
Proof.
  split; [reflexivity|]. split; [reflexivity|]. split.
  { apply (bool_decide_eq_true_1 _). vm_compute. reflexivity. }
  apply (@empty_geometries_are_left_out ascii_only MaybeEmpty maybe_empty_shapely
           services_for_maybe_empty three_nodes [] empty_lot EmptyPolygon []
           "Salzburg, Austria" 14%Z 0 0 0 0 empty_world); reflexivity.
Defined.

Lemma every_marker_is_in_one_cluster_witness :
  NoDup (all_cluster_children (heap sample_run.1) 0) ∧
  all_cluster_children (heap sample_run.1) 0 = [6; 8; 7; 9].
Proof.
  destruct (@every_marker_is_in_one_cluster ascii_only Shape fixture_shapely no_services
              three_nodes sample_pois "Salzburg, Austria" default_initial_zoom
              empty_world sample_run.1 0 sample_run_returns) as (Hnodup & _ & _).
  split; [exact Hnodup|]. vm_compute. reflexivity.
Defined.

Lemma rows_lost_in_the_try_witness :
  geometry nan_cafe = Some (point 13.04 47.8) ∧
  enters_try nan_cafe = true ∧ placed nan_cafe = None ∧
  ((∃ e, lon_lat (point 13.04 47.8) = Raised e ∧
         skip_line nan_cafe = Some (skipping nan_cafe e)) ∨
   ((∃ key, key ∈ type_tags ∧ attrs nan_cafe !! key = Some PyNaN) ∧
    skip_line nan_cafe =
      Some "Skipping POI 'Tomaselli' due to geometry error: 'float' object has no attribute 'replace'")).
Proof.
  split; [reflexivity|]. split; [vm_compute; reflexivity|].
  split; [vm_compute; reflexivity|].
  destruct (@rows_lost_in_the_try ascii_only Shape fixture_shapely nan_cafe
              (point 13.04 47.8))
    as [Hgeometry | [Hkey Hline]];
    [reflexivity | vm_compute; reflexivity | vm_compute; reflexivity | by left |].
  right. split; [exact Hkey|]. rewrite Hline. vm_compute. reflexivity.
Defined.

Lemma main_stops_when_the_network_fails_witness :
  @main ascii_only Shape fixture_shapely no_services save_writes no_subclass empty_world =
    ({| stdout :=
          [ "--- Downloading street network for: Salzburg, Austria (walk network) ---";
            "Error downloading street network for Salzburg, Austria: Max retries exceeded";
            "An error occurred: Could not retrieve street network for 'Salzburg, Austria'. Check place name or network type." ];
        heap := [] |},
     Returned tt).
Proof.
  apply (@main_stops_when_the_network_fails ascii_only Shape fixture_shapely no_services
           save_writes no_subclass offline empty_world).
  reflexivity.
Defined.

Lemma main_stops_when_no_poi_is_found_witness :
  heap (@main ascii_only Shape fixture_shapely
          (canned_services (Returned three_nodes) (Returned []))
          save_writes no_subclass empty_world).1 = [] ∧
  last (stdout (@main ascii_only Shape fixture_shapely
                  (canned_services (Returned three_nodes) (Returned []))
                  save_writes no_subclass empty_world).1) =
    Some "An error occurred: Could not retrieve POIs for 'Salzburg, Austria'. Check tags or place name.".
Proof.
  apply (@main_stops_when_no_poi_is_found ascii_only Shape fixture_shapely
           (canned_services (Returned three_nodes) (Returned []))
           save_writes no_subclass three_nodes empty_world).
  - reflexivity.
  - left. reflexivity.
Defined.

Lemma main_reports_builder_errors_by_class_witness :
  last (stdout (@main ascii_only Shape fixture_shapely
                  (canned_services (Returned empty_graph) (Returned sample_pois))
                  save_writes no_subclass empty_world).1) =
    Some "An error occurred: Graph has no nodes to calculate a centroid." ∧
  last (stdout (@main ascii_only Shape fixture_shapely
                  (strict_services (Returned lonely_node) (Returned sample_pois))
                  save_writes no_subclass empty_world).1) =
    Some "An error occurred: Graph contains no edges".
Proof.
  split.
  - destruct (@main_reports_builder_errors_by_class ascii_only Shape fixture_shapely
                (canned_services (Returned empty_graph) (Returned sample_pois))
                save_writes no_subclass empty_graph sample_pois empty_world)
      as [Hnodes _]; [reflexivity | reflexivity | discriminate |].
    destruct Hnodes as [_ Hlast]; [reflexivity | exact Hlast].
  - destruct (@main_reports_builder_errors_by_class ascii_only Shape fixture_shapely
                (strict_services (Returned lonely_node) (Returned sample_pois))
                save_writes no_subclass lonely_node sample_pois empty_world)
      as [_ Hedges]; [reflexivity | reflexivity | discriminate |].
    apply (Hedges (47, 13)%float no_edges); vm_compute; reflexivity.
Defined.

Lemma main_saves_the_map_it_built_witness :
  ∃ w3,
    document (heap w3) 0 =
      Some (expected_document (20, 30)%float default_initial_zoom
              (edges three_nodes) sample_pois) ∧
    @main ascii_only Shape fixture_shapely salzburg_services save_writes no_subclass empty_world =
      ({| stdout := stdout w3 ++ ["Map saved as salzburg_interactive_map.html"];
          heap := heap w3 |}, Returned tt).
Proof.
  destruct (@main_saves_the_map_it_built ascii_only Shape fixture_shapely salzburg_services
              save_writes no_subclass three_nodes sample_pois (20, 30)%float
              (edges three_nodes) empty_world)
    as (w3 & Hheap & Hdoc & Hmain);
    [reflexivity | reflexivity | discriminate
    | vm_compute; reflexivity | reflexivity |].
  exists w3. split; [exact Hdoc | exact Hmain].
Defined.
